(** * Slapstick enhancer: a shallow embedding of [slapstick_ologs.py] and
    [slapstick_enhancer_mcp.py], and the properties of the design
    document checked against it.

    Layout: Python values and exceptions, the float model, the taxonomy,
    the static tables, the intent resolver, the prompt templates and
    renderers, the three tools; then the vocabulary of the properties
    and the lemmas.

    Conventions.  An [int] is a [Z]; a [float] is an IEEE 754 binary64
    value ([spec_float] at precision 53); the text of a [str] is a
    [string], the bytes of its UTF-8 encoding; a [str] argument of
    [enhance_with_intent] is a [pystr], an exact [str] or a member of a
    [str] enum; [upper] is written out on ASCII text and takes the
    Unicode case mapping as a parameter; a module-level dictionary is an
    association list in source order; the resolver's working dictionary
    is a [gmap string Z]; a call returns [Ok v] or ends by [Raise e].
    The resolver is given twice: as a function of the intent, the
    tables being constants, and as a call on a store, where the tables
    are class attributes and the objects live on a heap. *)

From Stdlib Require Import ZArith String Ascii List Lia SpecFloat Sorted.
From stdpp Require Import base decidable option list strings gmap fin_maps.

Local Open Scope string_scope.
Local Open Scope Z_scope.

(** ** Python exceptions and the result of a call

    A Python call either returns a value or raises.  [Ok] is a normal
    return (an error dictionary is still a normal return), [Raise] is an
    exception travelling up the stack. *)

Inductive exn : Type :=
  | KeyError (key : string)
  | ValueError (msg : string)
  | TypeError (msg : string)
  | OverflowError (msg : string)
  | AttributeError (msg : string).

Inductive result (A : Type) : Type :=
  | Ok (a : A)
  | Raise (e : exn).
Arguments Ok {A} a.
Arguments Raise {A} e.

#[global] Instance exn_eq_dec : EqDecision exn.
Proof. solve_decision. Defined.

#[global] Instance result_ret : MRet result := fun _ a => Ok a.
#[global] Instance result_bind : MBind result := fun _ _ f m =>
  match m with
  | Ok a => f a
  | Raise e => Raise e
  end.

(** [try: body except handled as e: handler].  [handled] says which
    exception classes the [except] clause names. *)
Definition try_except {A} (body : result A) (handled : exn -> bool)
    (handler : exn -> result A) : result A :=
  match body with
  | Ok a => Ok a
  | Raise e => if handled e then handler e else Raise e
  end.

(** [except ValueError].  None of the other four classes derives from
    [ValueError] ([KeyError] is a [LookupError], [OverflowError] an
    [ArithmeticError]). *)
Definition is_ValueError (e : exn) : bool :=
  match e with ValueError _ => true | _ => false end.

(** [except (ValueError, TypeError)]. *)
Definition is_ValueError_or_TypeError (e : exn) : bool :=
  match e with ValueError _ | TypeError _ => true | _ => false end.

(** [str(e)] of an exception; [str(KeyError(k))] is the repr of the key. *)
Definition exn_str (e : exn) : string :=
  match e with
  | KeyError k => "'" +:+ k +:+ "'"
  | ValueError m | TypeError m | OverflowError m | AttributeError m => m
  end.

(** ** Dictionaries with a fixed content

    A module-level dictionary is an association list in insertion order
    (the order [items()] and [sorted] see); keys are unique. *)

Section Dict.
Context {K V : Type} `{EqDecision K}.

Fixpoint dict_lookup (d : list (K * V)) (k : K) : option V :=
  match d with
  | [] => None
  | (k', v) :: d' => if decide (k' = k) then Some v else dict_lookup d' k
  end.

(** [d.get(k, dflt)] *)
Definition dict_get (d : list (K * V)) (k : K) (dflt : V) : V :=
  default dflt (dict_lookup d k).

(** [d[k]]; [repr] prints the key for the [KeyError]. *)
Definition dict_getitem (repr : K -> string) (d : list (K * V)) (k : K)
    : result V :=
  match dict_lookup d k with
  | Some v => Ok v
  | None => Raise (KeyError (repr k))
  end.
End Dict.

(** ** Rounding of fractions

    [n / d] with [0 < d], rounded to an integer. *)

Definition round_half_even (n d : Z) : Z :=
  let q := n / d in
  let r := n mod d in
  match 2 * r ?= d with
  | Lt => q
  | Gt => q + 1
  | Eq => if Z.even q then q else q + 1
  end.

Definition round_half_away (n d : Z) : Z :=
  if 0 <=? n then (2 * n + d) / (2 * d)
  else - ((2 * (- n) + d) / (2 * d)).

(** ** Python floats: IEEE 754 binary64, as [spec_float] *)

Module PyFloat.
Definition prec : Z := 53.
Definition emax : Z := 1024.

(** [float(z)] for an [int]; exact below [2^53]. *)
Definition of_int (z : Z) : spec_float := binary_normalize prec emax z 0 false.

(** The decimal literal [n/d] (0.3 is [literal 3 10]): the double
    nearest to the fraction, which is the correctly rounded quotient
    of the two exactly representable integers. *)
Definition literal (n d : Z) : spec_float :=
  SFdiv prec emax (of_int n) (of_int d).

Definition mul (x y : spec_float) : spec_float := SFmul prec emax x y.

(** [int * float]: the int is converted, then multiplied. *)
Definition int_mul (z : Z) (y : spec_float) : spec_float := mul (of_int z) y.

(** [round(x)] with one argument: the nearest integer to the exact
    value of the double, ties to even; infinities and NaN raise. *)
Definition round (x : spec_float) : result Z :=
  match x with
  | S754_zero _ => Ok 0
  | S754_finite s m e =>
      let n := cond_Zopp s (Zpos m) in
      Ok (if 0 <=? e then n * 2 ^ e else round_half_even n (2 ^ (- e)))
  | S754_infinity _ =>
      Raise (OverflowError "cannot convert float infinity to integer")
  | S754_nan => Raise (ValueError "cannot convert float NaN to integer")
  end.
End PyFloat.

(** [round(i)] of an [int] is the int. *)
Definition round_int (z : Z) : Z := z.

(** [int(i)] of an [int] is the int. *)
Definition int_of_int (z : Z) : result Z := Ok z.

(** ** Strings *)

(** Upper-casing of an ASCII character: the letters a-z move to A-Z,
    every other character stays. *)
Definition ascii_upper (c : ascii) : ascii :=
  let n := nat_of_ascii c in
  if ((97 <=? n) && (n <=? 122))%nat then ascii_of_nat (n - 32) else c.

(** [str.upper()] on ASCII text. *)
Fixpoint upper_ascii (s : string) : string :=
  match s with
  | EmptyString => EmptyString
  | String c s' => String (ascii_upper c) (upper_ascii s')
  end.

(** Every byte of the text is below 128: the text is ASCII. *)
Fixpoint is_ascii (s : string) : bool :=
  match s with
  | EmptyString => true
  | String c s' => (nat_of_ascii c <? 128)%nat && is_ascii s'
  end.

(** A [str] object as a caller can hand it to a tool: an exact [str], or
    a member of a [(str, Enum)] class such as [EmotionalTone.TENSE].  A
    member is a [str] whose text is its value; it has a [.value], and an
    f-string prints it as [formatted]: its value before Python 3.12,
    [Class.NAME] from 3.12 on. *)
Inductive pystr : Type :=
  | Str (s : string)
  | Member (value formatted : string).

Coercion Str : string >-> pystr.

(** The characters [str] methods see. *)
Definition text (x : pystr) : string :=
  match x with Str s => s | Member value _ => value end.

(** [f"{x}"] *)
Definition format (x : pystr) : string :=
  match x with Str s => s | Member _ formatted => formatted end.

(** [x.value]: an exact [str] has no such attribute, a member has. *)
Definition str_value (x : pystr) : result string :=
  match x with
  | Str _ => Raise (AttributeError "'str' object has no attribute 'value'")
  | Member value _ => Ok value
  end.

(** [sep.join(l)] *)
Definition join (sep : string) (l : list string) : string := String.concat sep l.

(** ** Layer 1: the taxonomy ([slapstick_ologs.py]) *)

Inductive SubjectType : Type :=
  | ARCHITECTURE | PORTRAIT | STILL_LIFE | LANDSCAPE | ABSTRACT | PRODUCT | SCENE.

Inductive EmotionalTone : Type :=
  | PLAYFUL | TENSE | ABSURD | WHIMSICAL | SURREAL | DRAMATIC | CHAOTIC
  | ELEGANT | OMINOUS.

Inductive VisualPriority : Type :=
  | SCALE | PHYSICS | REPETITION | CLARITY | SUSPENSE | RHYTHM | DISTORTION
  | BALANCE | FLOW | IMPACT.

Inductive IntensityLevel : Type :=
  | SUBTLE | MODERATE | STRONG | EXTREME.

#[global] Instance SubjectType_eq_dec : EqDecision SubjectType.
Proof. solve_decision. Defined.
#[global] Instance EmotionalTone_eq_dec : EqDecision EmotionalTone.
Proof. solve_decision. Defined.
#[global] Instance VisualPriority_eq_dec : EqDecision VisualPriority.
Proof. solve_decision. Defined.
#[global] Instance IntensityLevel_eq_dec : EqDecision IntensityLevel.
Proof. solve_decision. Defined.

(** An [Enum] class: its members in definition order, each with its
    name (what [Cls[name]] looks up) and its value (the [.value]). *)
Class PyEnum (T : Type) := {
  members : list T;
  member_name : T -> string;
  member_value : T -> string;
}.

#[global] Instance SubjectType_enum : PyEnum SubjectType := {
  members := [ARCHITECTURE; PORTRAIT; STILL_LIFE; LANDSCAPE; ABSTRACT; PRODUCT; SCENE];
  member_name st :=
    match st with
    | ARCHITECTURE => "ARCHITECTURE" | PORTRAIT => "PORTRAIT"
    | STILL_LIFE => "STILL_LIFE" | LANDSCAPE => "LANDSCAPE"
    | ABSTRACT => "ABSTRACT" | PRODUCT => "PRODUCT" | SCENE => "SCENE"
    end;
  member_value st :=
    match st with
    | ARCHITECTURE => "architecture" | PORTRAIT => "portrait"
    | STILL_LIFE => "still_life" | LANDSCAPE => "landscape"
    | ABSTRACT => "abstract" | PRODUCT => "product" | SCENE => "scene"
    end;
}.

#[global] Instance EmotionalTone_enum : PyEnum EmotionalTone := {
  members := [PLAYFUL; TENSE; ABSURD; WHIMSICAL; SURREAL; DRAMATIC; CHAOTIC;
              ELEGANT; OMINOUS];
  member_name t :=
    match t with
    | PLAYFUL => "PLAYFUL" | TENSE => "TENSE" | ABSURD => "ABSURD"
    | WHIMSICAL => "WHIMSICAL" | SURREAL => "SURREAL" | DRAMATIC => "DRAMATIC"
    | CHAOTIC => "CHAOTIC" | ELEGANT => "ELEGANT" | OMINOUS => "OMINOUS"
    end;
  member_value t :=
    match t with
    | PLAYFUL => "playful" | TENSE => "tense" | ABSURD => "absurd"
    | WHIMSICAL => "whimsical" | SURREAL => "surreal" | DRAMATIC => "dramatic"
    | CHAOTIC => "chaotic" | ELEGANT => "elegant" | OMINOUS => "ominous"
    end;
}.

#[global] Instance VisualPriority_enum : PyEnum VisualPriority := {
  members := [SCALE; PHYSICS; REPETITION; CLARITY; SUSPENSE; RHYTHM; DISTORTION;
              BALANCE; FLOW; IMPACT];
  member_name p :=
    match p with
    | SCALE => "SCALE" | PHYSICS => "PHYSICS" | REPETITION => "REPETITION"
    | CLARITY => "CLARITY" | SUSPENSE => "SUSPENSE" | RHYTHM => "RHYTHM"
    | DISTORTION => "DISTORTION" | BALANCE => "BALANCE" | FLOW => "FLOW"
    | IMPACT => "IMPACT"
    end;
  member_value p :=
    match p with
    | SCALE => "scale" | PHYSICS => "physics" | REPETITION => "repetition"
    | CLARITY => "clarity" | SUSPENSE => "suspense" | RHYTHM => "rhythm"
    | DISTORTION => "distortion" | BALANCE => "balance" | FLOW => "flow"
    | IMPACT => "impact"
    end;
}.

#[global] Instance IntensityLevel_enum : PyEnum IntensityLevel := {
  members := [SUBTLE; MODERATE; STRONG; EXTREME];
  member_name i :=
    match i with
    | SUBTLE => "SUBTLE" | MODERATE => "MODERATE" | STRONG => "STRONG"
    | EXTREME => "EXTREME"
    end;
  member_value i :=
    match i with
    | SUBTLE => "subtle" | MODERATE => "moderate" | STRONG => "strong"
    | EXTREME => "extreme"
    end;
}.

(** [Cls[name]]: the member of that exact name, else [KeyError(name)]. *)
Definition enum_getitem (T : Type) `{PyEnum T} (name : string) : result T :=
  match find (fun m => bool_decide (member_name m = name)) members with
  | Some m => Ok m
  | None => Raise (KeyError name)
  end.

(** ** Layer 2: profile structures *)

Record SlapstickParameterSet : Type := {
  exaggeration : Z;
  timing : Z;
  physical : Z;
  ruleOfThree : Z;
  readability : Z;
  tension : Z;
}.

#[global] Instance SlapstickParameterSet_eq_dec : EqDecision SlapstickParameterSet.
Proof. solve_decision. Defined.

Definition to_dict (self : SlapstickParameterSet) : gmap string Z :=
  <["tension" := tension self]>
  (<["readability" := readability self]>
  (<["ruleOfThree" := ruleOfThree self]>
  (<["physical" := physical self]>
  (<["timing" := timing self]>
  (<["exaggeration" := exaggeration self]> ∅))))).

(** [0 <= value <= 10] *)
Definition in_bounds (value : Z) : bool := (0 <=? value) && (value <=? 10).

Definition validate (self : SlapstickParameterSet) : bool :=
  forallb in_bounds
    [exaggeration self; timing self; physical self;
     ruleOfThree self; readability self; tension self].

Record DesignIntent : Type := {
  subject_type : SubjectType;
  emotional_tone : EmotionalTone;
  visual_priorities : list VisualPriority;
  intensity_level : IntensityLevel;
}.

(** ** Layer 3: the olog morphisms *)

Definition mk_params (e t p r rd tn : Z) : SlapstickParameterSet :=
  {| exaggeration := e; timing := t; physical := p;
     ruleOfThree := r; readability := rd; tension := tn |}.

Definition SUBJECT_TYPE_PRESETS : list (SubjectType * SlapstickParameterSet) :=
  [ (ARCHITECTURE, mk_params 7 4 6 7 6 8);
    (PORTRAIT,     mk_params 6 5 4 5 8 4);
    (STILL_LIFE,   mk_params 8 6 7 8 7 6);
    (LANDSCAPE,    mk_params 7 7 8 6 5 7);
    (ABSTRACT,     mk_params 9 8 9 7 4 8);
    (PRODUCT,      mk_params 8 5 6 7 9 5);
    (SCENE,        mk_params 6 7 7 6 6 7) ].

Definition INTENSITY_MULTIPLIERS : list (IntensityLevel * spec_float) :=
  [ (SUBTLE,   PyFloat.literal 3 10);
    (MODERATE, PyFloat.literal 6 10);
    (STRONG,   PyFloat.literal 85 100);
    (EXTREME,  PyFloat.literal 1 1) ].

Definition EMOTIONAL_TONE_MODIFIERS : list (EmotionalTone * list (string * Z)) :=
  [ (PLAYFUL,   [("timing", 2); ("physical", 2); ("ruleOfThree", 1)]);
    (TENSE,     [("tension", 3); ("physical", -1); ("readability", 1)]);
    (ABSURD,    [("exaggeration", 3); ("physical", 2); ("readability", -2)]);
    (WHIMSICAL, [("timing", 2); ("ruleOfThree", 2); ("exaggeration", 1)]);
    (SURREAL,   [("exaggeration", 3); ("physical", 3); ("readability", -1)]);
    (DRAMATIC,  [("tension", 3); ("readability", 2); ("timing", 1)]);
    (CHAOTIC,   [("exaggeration", 2); ("physical", 3); ("timing", 2);
                 ("readability", -2)]);
    (ELEGANT,   [("readability", 3); ("ruleOfThree", 2); ("timing", 1);
                 ("physical", -1)]);
    (OMINOUS,   [("tension", 4); ("timing", -1); ("readability", 1)]) ].

Definition VISUAL_PRIORITY_BOOSTS : list (VisualPriority * string) :=
  [ (SCALE, "exaggeration");
    (PHYSICS, "physical");
    (REPETITION, "ruleOfThree");
    (CLARITY, "readability");
    (SUSPENSE, "tension");
    (RHYTHM, "timing");
    (DISTORTION, "exaggeration");
    (BALANCE, "tension");
    (FLOW, "timing");
    (IMPACT, "physical") ].

(** The six [round(subject_params.f * multiplier)] of step 2, as the
    dictionary literal builds them (left to right). *)
Definition scaled_params (subject_params : SlapstickParameterSet)
    (multiplier : spec_float) : result (gmap string Z) :=
  e ← PyFloat.round (PyFloat.int_mul (exaggeration subject_params) multiplier);
  t ← PyFloat.round (PyFloat.int_mul (timing subject_params) multiplier);
  p ← PyFloat.round (PyFloat.int_mul (physical subject_params) multiplier);
  r ← PyFloat.round (PyFloat.int_mul (ruleOfThree subject_params) multiplier);
  rd ← PyFloat.round (PyFloat.int_mul (readability subject_params) multiplier);
  tn ← PyFloat.round (PyFloat.int_mul (tension subject_params) multiplier);
  Ok (to_dict (mk_params e t p r rd tn)).

(** One turn of the step-3 loop:
    [if param_name in params: params[param_name] = max(0, min(10, params[param_name] + delta))] *)
Definition apply_modifier (params : gmap string Z) (item : string * Z)
    : gmap string Z :=
  match params !! item.1 with
  | Some v => <[item.1 := Z.max 0 (Z.min 10 (v + item.2))]> params
  | None => params
  end.

(** One turn of the step-4 loop:
    [target_param = BOOSTS.get(priority)];
    [if target_param and target_param in params: params[target_param] = min(10, params[target_param] + 2)] *)
Definition apply_boost (params : gmap string Z) (priority : VisualPriority)
    : gmap string Z :=
  match dict_lookup VISUAL_PRIORITY_BOOSTS priority with
  | Some target_param =>
      if bool_decide (target_param = "") then params
      else match params !! target_param with
           | Some v => <[target_param := Z.min 10 (v + 2)]> params
           | None => params
           end
  | None => params
  end.

(** Step 5: [for key in params: params[key] = max(0, min(10, round(params[key])))] *)
Definition clamp_all (params : gmap string Z) : gmap string Z :=
  (fun v => Z.max 0 (Z.min 10 (round_int v))) <$> params.

(** [params[key]] on the working dictionary. *)
Definition params_getitem (params : gmap string Z) (key : string) : result Z :=
  match params !! key with
  | Some v => Ok v
  | None => Raise (KeyError key)
  end.

Definition design_intent_to_parameters (design_intent : DesignIntent)
    : result SlapstickParameterSet :=
  (* Step 1: subject type preset *)
  scene ← dict_getitem member_value SUBJECT_TYPE_PRESETS SCENE;
  let subject_params :=
    dict_get SUBJECT_TYPE_PRESETS (subject_type design_intent) scene in
  (* Step 2: intensity multiplier *)
  moderate ← dict_getitem member_value INTENSITY_MULTIPLIERS MODERATE;
  let multiplier :=
    dict_get INTENSITY_MULTIPLIERS (intensity_level design_intent) moderate in
  params ← scaled_params subject_params multiplier;
  (* Step 3: emotional tone modifiers *)
  let modifiers :=
    dict_get EMOTIONAL_TONE_MODIFIERS (emotional_tone design_intent) [] in
  let params := fold_left apply_modifier modifiers params in
  (* Step 4: visual priority boosts *)
  let params := fold_left apply_boost (visual_priorities design_intent) params in
  (* Step 5: bounds *)
  let params := clamp_all params in
  e ← params_getitem params "exaggeration";
  t ← params_getitem params "timing";
  p ← params_getitem params "physical";
  r ← params_getitem params "ruleOfThree";
  rd ← params_getitem params "readability";
  tn ← params_getitem params "tension";
  Ok (mk_params e t p r rd tn).

Definition validate_parameters (params : SlapstickParameterSet) : bool :=
  validate params.

Definition parameters_to_enhancement_description (params : SlapstickParameterSet)
    : gmap string string :=
  let descriptions : gmap string string := ∅ in
  let descriptions :=
    <["exaggeration" :=
       if 9 <=? exaggeration params then "extreme distortions with impossible scales"
       else if 6 <=? exaggeration params then "obvious proportion exaggerations"
       else if 3 <=? exaggeration params then "subtle scale variations"
       else "minimal exaggeration"]> descriptions in
  let descriptions :=
    <["timing" :=
       if 9 <=? timing params then "staccato visual interruptions"
       else if 6 <=? timing params then "strong rhythmic composition"
       else if 3 <=? timing params then "gentle repetition"
       else "static composition"]> descriptions in
  let descriptions :=
    <["physical" :=
       if 9 <=? physical params then "extreme elasticity and squash-stretch"
       else if 6 <=? physical params then "squash and stretch principles"
       else if 3 <=? physical params then "subtle material flexibility"
       else "realistic physics"]> descriptions in
  let descriptions :=
    <["ruleOfThree" :=
       if 9 <=? ruleOfThree params then "complex triplet patterns"
       else if 6 <=? ruleOfThree params then "clear triplet groupings"
       else if 3 <=? ruleOfThree params then "subtle triplet hints"
       else "no triplet emphasis"]> descriptions in
  let descriptions :=
    <["readability" :=
       if 9 <=? readability params then "crystal clear graphic simplification"
       else if 6 <=? readability params then "strong silhouette clarity"
       else if 3 <=? readability params then "subtle graphic emphasis"
       else "complex visual details"]> descriptions in
  let descriptions :=
    <["tension" :=
       if 9 <=? tension params then "extreme precarious balance"
       else if 6 <=? tension params then "strong suspenseful moment"
       else if 3 <=? tension params then "subtle tension"
       else "peaceful balance"]> descriptions in
  descriptions.

(** ** Prompt templates ([slapstick_enhancer_mcp.py]) *)

(** A template table: [(min, max)] keys to text, in source order. *)
Definition templates : Type := list ((Z * Z) * string).

Definition EXAGGERATION_TEMPLATES : templates :=
  [ ((9, 10), "extreme distortions with impossible scales showing 3-5x size variations, surreal color intensity, warped perspective that shouldn't work but does");
    ((6, 8), "obvious proportion exaggerations, oversaturated colors and heightened contrast, forced perspective");
    ((3, 5), "subtle scale variations and slightly heightened color saturation");
    ((0, 2), "realistic proportions and natural color") ].

Definition TIMING_TEMPLATES : templates :=
  [ ((9, 10), "staccato visual interruptions, dramatic motion blur on static objects, speed lines suggesting imminent action");
    ((6, 8), "strong rhythmic composition with repeating elements, anticipation spaces and visual pauses between key elements");
    ((3, 5), "gentle repetition of visual elements creating compositional rhythm");
    ((0, 2), "static composition without temporal elements") ].

Definition PHYSICAL_TEMPLATES : templates :=
  [ ((9, 10), "extreme elasticity and squash-stretch distortion, mid-collision freeze-frame moment, materials stretched or compressed cartoonishly, complete defiance of physics");
    ((6, 8), "squash and stretch principles applied to forms, gravity-defying elements, objects mid-fall or impossibly suspended");
    ((3, 5), "subtle material flexibility, slight impossibilities in physics");
    ((0, 2), "realistic physics and rigid materials") ].

Definition RULE_OF_THREE_TEMPLATES : templates :=
  [ ((9, 10), "complex establish-repeat-subvert patterns, three-part visual jokes in composition, triple visual callbacks, all using rule of thirds positioning");
    ((6, 8), "clear triplet groupings, establish one element then systematically repeat-with-variation twice more, visual pattern of three");
    ((3, 5), "subtle hints of grouping in threes, occasional triplet arrangement");
    ((0, 2), "no emphasis on triplet groupings") ].

Definition READABILITY_TEMPLATES : templates :=
  [ ((9, 10), "crystal clear graphic simplification and silhouette clarity, high contrast separating subject from background, visual clarity even from distance");
    ((6, 8), "strong silhouette clarity and graphic simplification, clear contrast between subject and environment");
    ((3, 5), "subtle graphic emphasis with readable forms");
    ((0, 2), "complex visual details without simplification") ].

Definition TENSION_TEMPLATES : templates :=
  [ ((9, 10), "extreme precarious balance suggesting imminent collapse, maximum suspense and about-to-happen energy, frozen moment of chaos");
    ((6, 8), "strong suspenseful moment with clear tension, objects at unstable angles, sense of impending action");
    ((3, 5), "subtle underlying tension and unease");
    ((0, 2), "peaceful balanced composition") ].

Definition NEGATIVE_PROMPT_COMPONENTS : list (string * string) :=
  [ ("high_exaggeration", "realistic proportions, natural colors, subtle");
    ("high_timing", "static composition, no motion, no rhythm");
    ("high_physical", "realistic physics, rigid materials, no distortion");
    ("high_rule_of_three", "no pattern, no rhythm, random composition");
    ("low_readability", "cluttered, confusing, unclear silhouette");
    ("high_tension", "peaceful, calm, balanced, serene") ].

(** [a < b] on [((min, max), text)] items, as Python orders tuples:
    by the first differing component. *)
Definition item_ltb (a b : (Z * Z) * string) : bool :=
  let '((a1, a2), at_) := a in
  let '((b1, b2), bt) := b in
  if a1 =? b1 then
    if a2 =? b2 then String.ltb at_ bt else a2 <? b2
  else a1 <? b1.

(** [sorted(items, reverse=True)]: descending, equal items in their
    original order. *)
Fixpoint insert_desc (x : (Z * Z) * string) (l : list ((Z * Z) * string))
    : list ((Z * Z) * string) :=
  match l with
  | [] => [x]
  | y :: l' => if item_ltb x y then y :: insert_desc x l' else x :: l
  end.

Definition sorted_reverse (items : list ((Z * Z) * string))
    : list ((Z * Z) * string) :=
  foldr insert_desc [] items.

(** The loop of [get_template] over the sorted items. *)
Fixpoint first_match (param_value : Z) (items : list ((Z * Z) * string))
    : string :=
  match items with
  | [] => ""
  | ((min_val, max_val), text) :: rest =>
      if (min_val <=? param_value) && (param_value <=? max_val) then text
      else first_match param_value rest
  end.

Definition get_template (param_value : Z) (tpl : templates) : string :=
  first_match param_value (sorted_reverse tpl).

(** [if text: additions.append(text)] *)
Definition append_if (additions : list string) (text : string) : list string :=
  if bool_decide (text = "") then additions else (additions ++ [text])%list.

Definition build_enhanced_prompt (base_prompt : string)
    (params : SlapstickParameterSet) : string :=
  let additions := [] in
  let exag_text := get_template (exaggeration params) EXAGGERATION_TEMPLATES in
  let additions := append_if additions exag_text in
  let timing_text := get_template (timing params) TIMING_TEMPLATES in
  let additions := append_if additions timing_text in
  let physical_text := get_template (physical params) PHYSICAL_TEMPLATES in
  let additions := append_if additions physical_text in
  let rot_text := get_template (ruleOfThree params) RULE_OF_THREE_TEMPLATES in
  let additions := append_if additions rot_text in
  let read_text := get_template (readability params) READABILITY_TEMPLATES in
  let additions := append_if additions read_text in
  let tension_text := get_template (tension params) TENSION_TEMPLATES in
  let additions := append_if additions tension_text in
  match additions with
  | [] => base_prompt
  | _ => base_prompt +:+ ", " +:+ join ", " additions
  end.

(** [if gate: negatives.append(NEGATIVE_PROMPT_COMPONENTS[key])] *)
Definition append_negative (negatives : list string) (gate : bool)
    (key : string) : result (list string) :=
  if gate then
    text ← dict_getitem id NEGATIVE_PROMPT_COMPONENTS key;
    Ok (negatives ++ [text])%list
  else Ok negatives.

Definition build_negative_prompt (params : SlapstickParameterSet)
    : result string :=
  let negatives := [] in
  negatives ← append_negative negatives (6 <=? exaggeration params) "high_exaggeration";
  negatives ← append_negative negatives (6 <=? timing params) "high_timing";
  negatives ← append_negative negatives (6 <=? physical params) "high_physical";
  negatives ← append_negative negatives (6 <=? ruleOfThree params) "high_rule_of_three";
  negatives ← append_negative negatives (8 <=? readability params) "low_readability";
  negatives ← append_negative negatives (6 <=? tension params) "high_tension";
  let base_negatives := ["blurry"; "low quality"; "distorted"; "ugly"] in
  Ok (match negatives with
      | [] => join ", " base_negatives
      | _ => join ", " (base_negatives ++ negatives)%list
      end).

(** ** The MCP tools *)

Section Interpreter.

#[local] Set Default Proof Using "Type".

(** [str.upper()] on text with a character outside ASCII: the Unicode
    case mapping of the running Python, taken as given. *)
Variable unicode_upper : string → string.

(** [x.upper()] *)
Definition upper (x : pystr) : string :=
  if is_ascii (text x) then upper_ascii (text x) else unicode_upper (text x).

(** What a tool returns: one of its result dictionaries, or [{"error": ...}]. *)
Inductive response : Type :=
  | IntentResponse (parameters_used : gmap string Z)
      (enhanced_prompt negative_prompt design_intent_summary : string)
  | ParametersResponse (parameters_used : gmap string Z)
      (enhanced_prompt negative_prompt : string)
  | DescribeResponse (descriptions : gmap string string)
      (parameters : gmap string Z)
  | ErrorResponse (error : string).

Definition is_KeyError (e : exn) : bool :=
  match e with KeyError _ => true | _ => false end.

(** The loop converting [visual_priorities]; [inl] is the [return]
    inside the loop, [inr] the list built when the loop ends. *)
Fixpoint convert_priorities (visual_priorities : list pystr)
    (priorities : list VisualPriority)
    : result (response + list VisualPriority) :=
  match visual_priorities with
  | [] => Ok (inr priorities)
  | priority_str :: rest =>
      match
        try_except
          (p ← enum_getitem VisualPriority (upper priority_str);
           Ok (inr (priorities ++ [p])%list))
          is_KeyError
          (fun _ =>
             Ok (inl (ErrorResponse
                        ("Invalid visual priority: " +:+ format priority_str))))
      with
      | Ok (inr priorities) => convert_priorities rest priorities
      | Ok (inl early) => Ok (inl early)
      | Raise e => Raise e
      end
  end.

Definition enhance_with_intent (base_prompt : string)
    (subject_type emotional_tone : pystr) (visual_priorities : list pystr)
    (intensity : pystr) : result response :=
  try_except
    (subject ← enum_getitem SubjectType (upper subject_type);
     emotion ← enum_getitem EmotionalTone (upper emotional_tone);
     intensity_level ← enum_getitem IntensityLevel (upper intensity);
     converted ← convert_priorities visual_priorities [];
     match converted with
     | inl early => Ok early
     | inr priorities =>
         let design_intent :=
           Build_DesignIntent subject emotion priorities intensity_level in
         params ← design_intent_to_parameters design_intent;
         if negb (validate_parameters params)
         then Ok (ErrorResponse "Invalid parameters generated")
         else
           let enhanced_prompt := build_enhanced_prompt base_prompt params in
           negative_prompt ← build_negative_prompt params;
           let visual_priorities_str :=
             match priorities with
             | [] => "none specified"
             | _ => join ", " (map member_value priorities)
             end in
           (* the summary reads [.value] of the enum [intensity_level] and
              of the argument [emotional_tone], not of the enum [emotion] *)
           let intensity_value := member_value intensity_level in
           tone_value ← str_value emotional_tone;
           let summary :=
             "Applied " +:+ intensity_value +:+ " " +:+ tone_value
             +:+ " treatment to " +:+ format subject_type
             +:+ ", emphasizing " +:+ visual_priorities_str in
           Ok (IntentResponse (to_dict params) enhanced_prompt negative_prompt
                 summary)
     end)
    is_ValueError
    (fun e => Ok (ErrorResponse ("Invalid input: " +:+ exn_str e))).

(** [max(0, min(10, int(x)))] *)
Definition clamp_arg (x : Z) : result Z :=
  v ← int_of_int x; Ok (Z.max 0 (Z.min 10 v)).

(** The [SlapstickParameterSet(...)] both parameter tools build, its
    arguments evaluated left to right. *)
Definition clamped_parameter_set
    (exaggeration timing physical ruleOfThree readability tension : Z)
    : result SlapstickParameterSet :=
  e ← clamp_arg exaggeration;
  t ← clamp_arg timing;
  p ← clamp_arg physical;
  r ← clamp_arg ruleOfThree;
  rd ← clamp_arg readability;
  tn ← clamp_arg tension;
  Ok (mk_params e t p r rd tn).

(** The six parameters are integers here; an omitted one is the
    caller's 5. *)
Definition enhance_with_parameters (base_prompt : string)
    (exaggeration timing physical ruleOfThree readability tension : Z)
    : result response :=
  try_except
    (params ← clamped_parameter_set exaggeration timing physical ruleOfThree
                readability tension;
     if negb (validate params)
     then Ok (ErrorResponse "Parameters must be between 0 and 10")
     else
       let enhanced_prompt := build_enhanced_prompt base_prompt params in
       negative_prompt ← build_negative_prompt params;
       Ok (ParametersResponse (to_dict params) enhanced_prompt negative_prompt))
    is_ValueError_or_TypeError
    (fun e => Ok (ErrorResponse ("Invalid parameter value: " +:+ exn_str e))).

Definition describe_parameters
    (exaggeration timing physical ruleOfThree readability tension : Z)
    : result response :=
  try_except
    (params ← clamped_parameter_set exaggeration timing physical ruleOfThree
                readability tension;
     let descriptions := parameters_to_enhancement_description params in
     Ok (DescribeResponse descriptions (to_dict params)))
    is_ValueError_or_TypeError
    (fun e => Ok (ErrorResponse ("Invalid parameter value: " +:+ exn_str e))).

(** [get_available_options()]: the [.value] of every member of the four
    enums, in definition order, under four keys. *)
Definition get_available_options : list (string * list string) :=
  [ ("subject_types", map member_value (@members SubjectType _));
    ("emotional_tones", map member_value (@members EmotionalTone _));
    ("visual_priorities", map member_value (@members VisualPriority _));
    ("intensity_levels", map member_value (@members IntensityLevel _)) ].

(** * Vocabulary of the properties

    Names for what the lemmas below talk about: the invariant of the
    resolver's working dictionary, the negative prompt and the buckets
    as the design document words them, and the shapes of a response. *)

(** The keys of the resolver's working dictionary. *)
Definition PARAMETER_NAMES : list string :=
  ["exaggeration"; "timing"; "physical"; "ruleOfThree"; "readability"; "tension"].

(** The six parameters are present and within [[0,10]]. *)
Definition bounded_params (m : gmap string Z) : Prop :=
  ∀ k, k ∈ PARAMETER_NAMES → ∃ v, m !! k = Some v ∧ 0 <= v <= 10.

(** The same, as a check that computes. *)
Definition bounded_paramsb (m : gmap string Z) : bool :=
  forallb (fun k => from_option in_bounds false (m !! k)) PARAMETER_NAMES.

(** The final six [params[...]] reads and the constructor call. *)
Definition parameter_set_of (params : gmap string Z)
    : result SlapstickParameterSet :=
  e ← params_getitem params "exaggeration";
  t ← params_getitem params "timing";
  p ← params_getitem params "physical";
  r ← params_getitem params "ruleOfThree";
  rd ← params_getitem params "readability";
  tn ← params_getitem params "tension";
  Ok (mk_params e t p r rd tn).

(** Steps 3 and 4 on a scaled dictionary. *)
Definition working_params (scaled : gmap string Z) (di : DesignIntent)
    : gmap string Z :=
  fold_left apply_boost (visual_priorities di)
    (fold_left apply_modifier
       (dict_get EMOTIONAL_TONE_MODIFIERS (emotional_tone di) []) scaled).

(** Steps 1 and 2: the preset and the multiplier the resolver picks. *)
Definition scaled_of (di : DesignIntent) : result (gmap string Z) :=
  scaled_params
    (dict_get SUBJECT_TYPE_PRESETS (subject_type di) (mk_params 6 7 7 6 6 7))
    (dict_get INTENSITY_MULTIPLIERS (intensity_level di) (PyFloat.literal 6 10)).

(** The negative prompt as the design document words it: four baseline
    terms, then one conditional term per gate that holds, the gates
    taken in a fixed order. *)
Definition BASELINE_NEGATIVES : list string :=
  ["blurry"; "low quality"; "distorted"; "ugly"].

(** (parameter, threshold, term): the term is added when the parameter
    is at or above the threshold. *)
Definition NEGATIVE_GATES : list ((SlapstickParameterSet → Z) * Z * string) :=
  [ (exaggeration, 6, "realistic proportions, natural colors, subtle");
    (timing, 6, "static composition, no motion, no rhythm");
    (physical, 6, "realistic physics, rigid materials, no distortion");
    (ruleOfThree, 6, "no pattern, no rhythm, random composition");
    (readability, 8, "cluttered, confusing, unclear silhouette");
    (tension, 6, "peaceful, calm, balanced, serene") ].

(** The gate's parameter is at or above its threshold. *)
Definition gate_holds (params : SlapstickParameterSet)
    (gate : (SlapstickParameterSet → Z) * Z * string) : bool :=
  gate.1.2 <=? gate.1.1 params.

(** The terms of the gates that hold, in the order of the gates. *)
Definition conditional_terms (params : SlapstickParameterSet) : list string :=
  map snd (List.filter (gate_holds params) NEGATIVE_GATES).

(** The negative prompt the design document describes. *)
Definition negative_prompt_spec (params : SlapstickParameterSet) : string :=
  join ", " (BASELINE_NEGATIVES ++ conditional_terms params).

(** The four value ranges of a template table. *)
Definition BUCKETS : list (Z * Z) := [(9, 10); (6, 8); (3, 5); (0, 2)].

(** [v] lies in the range [b], ends included. *)
Definition in_bucket (b : Z * Z) (v : Z) : Prop := b.1 <= v <= b.2.

(** [text] is the phrase of the one bucket of [tpl] that contains [v]. *)
Definition unique_bucket_fragment (tpl : templates) (v : Z) (text : string) : Prop :=
  ∃ b, (b, text) ∈ tpl ∧ in_bucket b v ∧
       ∀ b' text', (b', text') ∈ tpl → in_bucket b' v → (b', text') = (b, text).

(** The six shipped tables. *)
Definition TEMPLATE_TABLES : list templates :=
  [EXAGGERATION_TEMPLATES; TIMING_TEMPLATES; PHYSICAL_TEMPLATES;
   RULE_OF_THREE_TEMPLATES; READABILITY_TEMPLATES; TENSION_TEMPLATES].

(** The intent of the design document's scenario. *)
Definition office_intent : DesignIntent :=
  {| subject_type := ARCHITECTURE; emotional_tone := TENSE;
     visual_priorities := [SUSPENSE]; intensity_level := EXTREME |}.

(** The intent with one more priority at the end of its list. *)
Definition with_priority (di : DesignIntent) (p : VisualPriority) : DesignIntent :=
  {| subject_type := subject_type di; emotional_tone := emotional_tone di;
     visual_priorities := visual_priorities di ++ [p];
     intensity_level := intensity_level di |}.

(** Every value of a returned parameter dictionary is within [[0,10]]. *)
Definition vector_bounded (d : gmap string Z) : Prop :=
  map_Forall (fun _ v => 0 <= v <= 10) d.

(** A call's outcome carries no out-of-range vector. *)
Definition response_bounded (r : result response) : Prop :=
  match r with
  | Ok (IntentResponse d _ _ _) | Ok (ParametersResponse d _ _)
  | Ok (DescribeResponse _ d) => vector_bounded d
  | Ok (ErrorResponse _) | Raise _ => True
  end.

(** The call returned [{"error": msg}]. *)
Definition returns_error (msg : string) (r : result response) : bool :=
  match r with
  | Ok (ErrorResponse m) => bool_decide (m = msg)
  | _ => false
  end.

(** The multipliers as the decimal fractions the source writes. *)
Definition DECIMAL_MULTIPLIERS : list (IntensityLevel * (Z * Z)) :=
  [ (SUBTLE, (3, 10)); (MODERATE, (6, 10)); (STRONG, (85, 100));
    (EXTREME, (1, 1)) ].


(** [s], upper-cased, is the name of a member of the enum. *)
Definition known (T : Type) `{PyEnum T} (s : pystr) : bool :=
  bool_decide (upper s ∈ map member_name (@members T _)).

(** The upper-cased first of subject type, emotional tone and intensity,
    in that order, that names no member. *)
Definition first_unknown_option (subject_type emotional_tone intensity : pystr)
    : option string :=
  if negb (known SubjectType subject_type) then Some (upper subject_type)
  else if negb (known EmotionalTone emotional_tone) then Some (upper emotional_tone)
  else if negb (known IntensityLevel intensity) then Some (upper intensity)
  else None.

(** [max(0, min(10, x))] *)
Definition clamp (x : Z) : Z := Z.max 0 (Z.min 10 x).

(** The range of a table entry holds [v], ends included. *)
Definition range_holds (item : (Z * Z) * string) (v : Z) : Prop :=
  item.1.1 <= v <= item.1.2.

(** The order of [(min, max)] keys: by [min], then by [max]. *)
Definition key_lt (a b : Z * Z) : Prop :=
  a.1 < b.1 ∨ (a.1 = b.1 ∧ a.2 < b.2).

(** The six parameters with their field readers. *)
Definition PARAMETER_FIELDS : list (string * (SlapstickParameterSet → Z)) :=
  [ ("exaggeration", exaggeration); ("timing", timing); ("physical", physical);
    ("ruleOfThree", ruleOfThree); ("readability", readability);
    ("tension", tension) ].

(** The six parameters with their field readers and template tables. *)
Definition PARAMETER_TABLES
    : list (string * (SlapstickParameterSet → Z) * templates) :=
  [ ("exaggeration", exaggeration, EXAGGERATION_TEMPLATES);
    ("timing", timing, TIMING_TEMPLATES);
    ("physical", physical, PHYSICAL_TEMPLATES);
    ("ruleOfThree", ruleOfThree, RULE_OF_THREE_TEMPLATES);
    ("readability", readability, READABILITY_TEMPLATES);
    ("tension", tension, TENSION_TEMPLATES) ].

(** The preset of a subject scaled by the exact decimal multiplier of an
    intensity, each field rounded half to even. *)
Definition scaled_vector (st : SubjectType) (il : IntensityLevel)
    : SlapstickParameterSet :=
  let preset := dict_get SUBJECT_TYPE_PRESETS st (mk_params 6 7 7 6 6 7) in
  let '(n, d) := dict_get DECIMAL_MULTIPLIERS il (6, 10) in
  mk_params (round_half_even (exaggeration preset * n) d)
            (round_half_even (timing preset * n) d)
            (round_half_even (physical preset * n) d)
            (round_half_even (ruleOfThree preset * n) d)
            (round_half_even (readability preset * n) d)
            (round_half_even (tension preset * n) d).

(** The delta a tone gives parameter [k]; 0 when the tone leaves it out. *)
Definition tone_delta (tone : EmotionalTone) (k : string) : Z :=
  default 0 (dict_lookup (dict_get EMOTIONAL_TONE_MODIFIERS tone []) k).

(** How many priorities of the list target parameter [k]. *)
Definition boost_count (priorities : list VisualPriority) (k : string) : Z :=
  Z.of_nat (length (filter (fun p => dict_lookup VISUAL_PRIORITY_BOOSTS p = Some k)
                      priorities)).

(** The resolver's result for parameter [k], in closed form: the scaled
    value [s], the tone's delta with its clamp, then two per priority
    that targets [k], capped at 10. *)
Definition resolved_value (di : DesignIntent) (k : string) (s : Z) : Z :=
  Z.min 10 (clamp (s + tone_delta (emotional_tone di) k)
            + 2 * boost_count (visual_priorities di) k).

(** The intent with another priority list. *)
Definition with_priorities (di : DesignIntent) (priorities : list VisualPriority)
    : DesignIntent :=
  {| subject_type := subject_type di; emotional_tone := emotional_tone di;
     visual_priorities := priorities; intensity_level := intensity_level di |}.

(** The intent with another intensity level. *)
Definition with_intensity (di : DesignIntent) (il : IntensityLevel) : DesignIntent :=
  {| subject_type := subject_type di; emotional_tone := emotional_tone di;
     visual_priorities := visual_priorities di; intensity_level := il |}.

(** The place of an intensity level in the enum: subtle, moderate,
    strong, extreme. *)
Definition intensity_rank (il : IntensityLevel) : Z :=
  match il with SUBTLE => 0 | MODERATE => 1 | STRONG => 2 | EXTREME => 3 end.

(** In [sorted(..., reverse=True)] order: the earlier entry has the
    greater key. *)
Definition before (a b : (Z * Z) * string) : Prop := key_lt b.1 a.1.

(** [term in text] on strings. *)
Fixpoint contains (text term : string) : bool :=
  String.prefix term text
  || match text with
     | EmptyString => false
     | String _ rest => contains rest term
     end.

(** ** The resolver on the interpreter's store

    [design_intent_to_parameters] reads four dictionaries that are class
    attributes, the preset instances and modifier dictionaries they
    refer to, and works on a dictionary of its own.  All of these are
    mutable objects; here they live on a heap, the dictionaries hold
    references, and the function is written as the source steps through
    it: what it reads, what it allocates, what it assigns.  The store
    also carries what a call to [time.time()] or to the [random] module
    would read; neither module imports them. *)

Definition loc : Type := positive.

Inductive object : Type :=
  | ParameterSetObject (fields : SlapstickParameterSet)
  | ModifierDict (items : list (string * Z))
  | ParamsDict (entries : gmap string Z).

Record store : Type := {
  heap : gmap loc object;
  subject_type_presets : list (SubjectType * loc);
  intensity_multipliers : list (IntensityLevel * spec_float);
  emotional_tone_modifiers : list (EmotionalTone * loc);
  visual_priority_boosts : list (VisualPriority * string);
  clock : Z;
  random_state : Z;
}.

(** The store with another heap. *)
Definition with_heap (h : gmap loc object) (s : store) : store :=
  {| heap := h;
     subject_type_presets := subject_type_presets s;
     intensity_multipliers := intensity_multipliers s;
     emotional_tone_modifiers := emotional_tone_modifiers s;
     visual_priority_boosts := visual_priority_boosts s;
     clock := clock s;
     random_state := random_state s |}.

(** A new object, at a location not in use. *)
Definition allocate (o : object) (s : store) : loc * store :=
  let l := fresh (dom (heap s)) in
  (l, with_heap (<[l := o]> (heap s)) s).

(** The attribute reads [subject_params.exaggeration], ...: the fields
    of the instance referred to. *)
Definition fields_of (l : loc) (s : store) : result SlapstickParameterSet :=
  match heap s !! l with
  | Some (ParameterSetObject fields) => Ok fields
  | _ => Raise (AttributeError "object has no attribute 'exaggeration'")
  end.

(** [modifiers.items()] *)
Definition items_of (l : loc) (s : store) : result (list (string * Z)) :=
  match heap s !! l with
  | Some (ModifierDict items) => Ok items
  | _ => Raise (AttributeError "object has no attribute 'items'")
  end.

(** The content of the working dictionary. *)
Definition entries_of (l : loc) (s : store) : result (gmap string Z) :=
  match heap s !! l with
  | Some (ParamsDict entries) => Ok entries
  | _ => Raise (TypeError "object is not subscriptable")
  end.

(** An assignment [params[...] = ...]: the dictionary referred to is
    changed in place. *)
Definition assign (l : loc) (f : gmap string Z → gmap string Z) (s : store)
    : result store :=
  entries ← entries_of l s;
  Ok (with_heap (<[l := ParamsDict (f entries)]> (heap s)) s).

(** A [for] loop whose body changes the store. *)
Fixpoint for_each {A : Type} (body : A → store → result store) (l : list A)
    (s : store) : result store :=
  match l with
  | [] => Ok s
  | a :: l' => s' ← body a s; for_each body l' s'
  end.

(** One turn of the step-4 loop, the boost table being the one read. *)
Definition apply_boost_from (boosts : list (VisualPriority * string))
    (params : gmap string Z) (priority : VisualPriority) : gmap string Z :=
  match dict_lookup boosts priority with
  | Some target_param =>
      if bool_decide (target_param = "") then params
      else match params !! target_param with
           | Some v => <[target_param := Z.min 10 (v + 2)]> params
           | None => params
           end
  | None => params
  end.

(** The call: it returns the reference to a new instance. *)
Definition design_intent_to_parameters_on (design_intent : DesignIntent)
    (s : store) : result (loc * store) :=
  (* Step 1: subject type preset *)
  scene ← dict_getitem member_value (subject_type_presets s) SCENE;
  let subject_params :=
    dict_get (subject_type_presets s) (subject_type design_intent) scene in
  (* Step 2: intensity multiplier *)
  moderate ← dict_getitem member_value (intensity_multipliers s) MODERATE;
  let multiplier :=
    dict_get (intensity_multipliers s) (intensity_level design_intent) moderate in
  fields ← fields_of subject_params s;
  scaled ← scaled_params fields multiplier;
  let '(params, s) := allocate (ParamsDict scaled) s in
  (* Step 3: emotional tone modifiers; the default [{}] is a new object *)
  let '(empty, s) := allocate (ModifierDict []) s in
  let modifiers :=
    dict_get (emotional_tone_modifiers s) (emotional_tone design_intent) empty in
  items ← items_of modifiers s;
  s ← for_each (fun item => assign params (fun d => apply_modifier d item)) items s;
  (* Step 4: visual priority boosts *)
  s ← for_each
        (fun priority s =>
           assign params
             (fun d => apply_boost_from (visual_priority_boosts s) d priority) s)
        (visual_priorities design_intent) s;
  (* Step 5: bounds *)
  s ← assign params clamp_all s;
  entries ← entries_of params s;
  instance ← parameter_set_of entries;
  Ok (allocate (ParameterSetObject instance) s).

(** A table of references holds the shipped entries: the same keys in
    the same order, each reference leading to the shipped object. *)
Definition refers {K V : Type} (s : store) (shape : V → object)
    (entry : K * loc) (shipped : K * V) : Prop :=
  entry.1 = shipped.1 ∧ heap s !! entry.2 = Some (shape shipped.2).

(** The class attributes hold what the module ships. *)
Definition module_state (s : store) : Prop :=
  Forall2 (refers s ParameterSetObject) (subject_type_presets s) SUBJECT_TYPE_PRESETS
  ∧ intensity_multipliers s = INTENSITY_MULTIPLIERS
  ∧ Forall2 (refers s ModifierDict) (emotional_tone_modifiers s)
      EMOTIONAL_TONE_MODIFIERS
  ∧ visual_priority_boosts s = VISUAL_PRIORITY_BOOSTS.

(** The store once the module is imported: the objects of the class
    body in the order it creates them. *)
Definition module_store : store :=
  {| heap :=
       list_to_map
         [ (1%positive, ParameterSetObject (mk_params 7 4 6 7 6 8));
           (2%positive, ParameterSetObject (mk_params 6 5 4 5 8 4));
           (3%positive, ParameterSetObject (mk_params 8 6 7 8 7 6));
           (4%positive, ParameterSetObject (mk_params 7 7 8 6 5 7));
           (5%positive, ParameterSetObject (mk_params 9 8 9 7 4 8));
           (6%positive, ParameterSetObject (mk_params 8 5 6 7 9 5));
           (7%positive, ParameterSetObject (mk_params 6 7 7 6 6 7));
           (8%positive, ModifierDict [("timing", 2); ("physical", 2); ("ruleOfThree", 1)]);
           (9%positive, ModifierDict [("tension", 3); ("physical", -1); ("readability", 1)]);
           (10%positive, ModifierDict [("exaggeration", 3); ("physical", 2); ("readability", -2)]);
           (11%positive, ModifierDict [("timing", 2); ("ruleOfThree", 2); ("exaggeration", 1)]);
           (12%positive, ModifierDict [("exaggeration", 3); ("physical", 3); ("readability", -1)]);
           (13%positive, ModifierDict [("tension", 3); ("readability", 2); ("timing", 1)]);
           (14%positive, ModifierDict [("exaggeration", 2); ("physical", 3); ("timing", 2);
                                       ("readability", -2)]);
           (15%positive, ModifierDict [("readability", 3); ("ruleOfThree", 2); ("timing", 1);
                                       ("physical", -1)]);
           (16%positive, ModifierDict [("tension", 4); ("timing", -1); ("readability", 1)]) ];
     subject_type_presets :=
       [ (ARCHITECTURE, 1%positive); (PORTRAIT, 2%positive);
         (STILL_LIFE, 3%positive); (LANDSCAPE, 4%positive);
         (ABSTRACT, 5%positive); (PRODUCT, 6%positive); (SCENE, 7%positive) ];
     intensity_multipliers := INTENSITY_MULTIPLIERS;
     emotional_tone_modifiers :=
       [ (PLAYFUL, 8%positive); (TENSE, 9%positive); (ABSURD, 10%positive);
         (WHIMSICAL, 11%positive); (SURREAL, 12%positive);
         (DRAMATIC, 13%positive); (CHAOTIC, 14%positive);
         (ELEGANT, 15%positive); (OMINOUS, 16%positive) ];
     visual_priority_boosts := VISUAL_PRIORITY_BOOSTS;
     clock := 0;
     random_state := 0 |}.

(** A store of a later moment: another request has been resolved, the
    clock and the generator have moved on. *)
Definition later_store : store :=
  match design_intent_to_parameters_on
          {| subject_type := ABSTRACT; emotional_tone := CHAOTIC;
             visual_priorities := [DISTORTION; IMPACT; DISTORTION];
             intensity_level := STRONG |} module_store with
  | Ok (_, s) =>
      {| heap := heap s;
         subject_type_presets := subject_type_presets s;
         intensity_multipliers := intensity_multipliers s;
         emotional_tone_modifiers := emotional_tone_modifiers s;
         visual_priority_boosts := visual_priority_boosts s;
         clock := clock s + 3600;
         random_state := random_state s + 1 |}
  | Raise _ => module_store
  end.

(** * Properties *)

(** ** Rounding *)

Section Rounding.
Variables n d : Z.
Hypothesis d_pos : 0 < d.

#[local] Set Default Proof Using "n d d_pos".

Local Ltac euclid a b :=
  pose proof (Z.div_mod a b ltac:(lia));
  pose proof (Z.mod_pos_bound a b ltac:(lia));
  let q := fresh "q" in let r := fresh "r" in
  set (q := a / b) in *; set (r := a mod b) in *; clearbody q r.

(** [round_half_even] returns a nearest integer: it is at most one
    half away from [n / d]. *)
Lemma round_half_even_nearest :
  2 * Z.abs (round_half_even n d * d - n) <= d.
Proof.
  unfold round_half_even.
  destruct (Z.compare_spec (2 * (n mod d)) d) as [C|C|C];
    [destruct (Z.even (n / d))|..]; euclid n d; subst; lia.
Qed.

(** On a tie it returns the even neighbour. *)
Lemma round_half_even_tie :
  2 * Z.abs (round_half_even n d * d - n) = d ->
  Z.even (round_half_even n d) = true.
Proof.
  unfold round_half_even.
  destruct (Z.compare_spec (2 * (n mod d)) d) as [C|C|C].
  - intros _. destruct (Z.even (n / d)) eqn:Ev; [done|].
    rewrite Z.even_add, Ev. done.
  - euclid n d; subst; lia.
  - euclid n d; subst; lia.
Qed.

(** [round_half_away] returns a nearest integer too. *)
Lemma round_half_away_nearest :
  2 * Z.abs (round_half_away n d * d - n) <= d.
Proof.
  unfold round_half_away.
  destruct (0 <=? n) eqn:S.
  - euclid (2 * n + d) (2 * d). lia.
  - euclid (2 * - n + d) (2 * d). lia.
Qed.

(** On a tie it returns the neighbour further from zero. *)
Lemma round_half_away_tie :
  2 * Z.abs (round_half_away n d * d - n) = d ->
  Z.abs n < Z.abs (round_half_away n d * d).
Proof.
  unfold round_half_away.
  destruct (0 <=? n) eqn:S.
  - apply Z.leb_le in S. euclid (2 * n + d) (2 * d). lia.
  - apply Z.leb_gt in S. euclid (2 * - n + d) (2 * d). lia.
Qed.
End Rounding.

(** The four multipliers as doubles. *)
Lemma INTENSITY_MULTIPLIERS_bits :
  INTENSITY_MULTIPLIERS =
    [ (SUBTLE,   S754_finite false 5404319552844595 (-54));
      (MODERATE, S754_finite false 5404319552844595 (-53));
      (STRONG,   S754_finite false 7656119366529843 (-53));
      (EXTREME,  S754_finite false 4503599627370496 (-52)) ].
Proof. vm_compute. reflexivity. Qed.

(** Each multiplier is the double nearest to its decimal fraction: it
    is within half a unit in the last place of [n / d]. *)
Lemma INTENSITY_MULTIPLIERS_nearest :
  Forall (fun '(n, d, m, e) =>
            PyFloat.literal n d = S754_finite false m (- e)
            ∧ 2 * Z.abs (Z.pos m * d - n * 2 ^ e) <= d)
    [ (3, 10, 5404319552844595%positive, 54);
      (6, 10, 5404319552844595%positive, 53);
      (85, 100, 7656119366529843%positive, 53);
      (1, 1, 4503599627370496%positive, 52) ].
Proof. repeat constructor; vm_compute; (reflexivity || discriminate). Qed.

(** ** The working dictionary of the resolver *)

(** A literal name is one of the six. *)
Local Ltac in_names := unfold PARAMETER_NAMES; repeat constructor.

Lemma in_bounds_spec v : in_bounds v = true ↔ 0 <= v <= 10.
Proof. unfold in_bounds. rewrite andb_true_iff, !Z.leb_le. done. Qed.

Lemma bounded_paramsb_sound m : bounded_paramsb m = true → bounded_params m.
Proof.
  unfold bounded_paramsb, bounded_params. rewrite forallb_forall.
  intros H k Hk. specialize (H k). rewrite <- list_elem_of_In in H.
  specialize (H Hk). destruct (m !! k) as [v|]; [|done].
  exists v. split; [done|]. by apply in_bounds_spec.
Qed.

Lemma design_intent_to_parameters_unfold di :
  design_intent_to_parameters di =
    (scaled ← scaled_of di; parameter_set_of (clamp_all (working_params scaled di))).
Proof. reflexivity. Qed.

Lemma to_dict_lookup ps k :
  k ∈ PARAMETER_NAMES →
  to_dict ps !! k =
    Some (if bool_decide (k = "exaggeration") then exaggeration ps
          else if bool_decide (k = "timing") then timing ps
          else if bool_decide (k = "physical") then physical ps
          else if bool_decide (k = "ruleOfThree") then ruleOfThree ps
          else if bool_decide (k = "readability") then readability ps
          else tension ps).
Proof.
  intros Hk. unfold PARAMETER_NAMES in Hk.
  repeat (apply elem_of_cons in Hk as [->|Hk]); [..|by apply elem_of_nil in Hk];
    reflexivity.
Qed.

Lemma to_dict_bounded ps : validate ps = true → map_Forall (fun _ v => 0 <= v <= 10) (to_dict ps).
Proof.
  unfold validate. cbn [forallb]. rewrite !andb_true_iff, !in_bounds_spec.
  intros (? & ? & ? & ? & ? & ? & _). unfold to_dict.
  repeat (apply map_Forall_insert_2; [done|]). apply map_Forall_empty.
Qed.

Lemma to_dict_bounded_params ps : validate ps = true → bounded_params (to_dict ps).
Proof.
  unfold validate. cbn [forallb]. rewrite !andb_true_iff, !in_bounds_spec.
  intros (? & ? & ? & ? & ? & ? & _) k Hk.
  rewrite to_dict_lookup by done. eexists. split; [reflexivity|].
  repeat case_bool_decide; done.
Qed.

(** The scaled dictionary, from the six roundings. *)
Lemma scaled_params_eq sp mult e t p r rd tn :
  PyFloat.round (PyFloat.int_mul (exaggeration sp) mult) = Ok e →
  PyFloat.round (PyFloat.int_mul (timing sp) mult) = Ok t →
  PyFloat.round (PyFloat.int_mul (physical sp) mult) = Ok p →
  PyFloat.round (PyFloat.int_mul (ruleOfThree sp) mult) = Ok r →
  PyFloat.round (PyFloat.int_mul (readability sp) mult) = Ok rd →
  PyFloat.round (PyFloat.int_mul (tension sp) mult) = Ok tn →
  scaled_params sp mult = Ok (to_dict (mk_params e t p r rd tn)).
Proof. unfold scaled_params. intros -> -> -> -> -> ->. reflexivity. Qed.

(** The scaled dictionary of every subject and intensity. *)
Lemma scaled_of_bounded di : ∃ scaled, scaled_of di = Ok scaled ∧ bounded_params scaled.
Proof.
  destruct di as [st tone prios il]. unfold scaled_of. cbn [subject_type intensity_level].
  destruct st, il; eexists;
    (split; [eapply scaled_params_eq; vm_compute; reflexivity|]);
    apply to_dict_bounded_params; vm_compute; reflexivity.
Qed.

Lemma apply_modifier_bounded m item :
  bounded_params m → bounded_params (apply_modifier m item).
Proof.
  intros Hm k Hk. unfold apply_modifier.
  destruct (m !! item.1) as [v|] eqn:E; [|by apply Hm].
  destruct (decide (item.1 = k)) as [->|Hne].
  - rewrite lookup_insert_eq. eexists. split; [done|lia].
  - rewrite lookup_insert_ne by done. by apply Hm.
Qed.

Lemma apply_boost_bounded m priority :
  bounded_params m → bounded_params (apply_boost m priority).
Proof.
  intros Hm k Hk. unfold apply_boost.
  destruct (dict_lookup VISUAL_PRIORITY_BOOSTS priority) as [target|]; [|by apply Hm].
  case_bool_decide; [by apply Hm|].
  destruct (m !! target) as [v|] eqn:E; [|by apply Hm].
  destruct (decide (target = k)) as [->|Hne].
  - rewrite lookup_insert_eq. destruct (Hm k Hk) as (v' & Hv' & ?).
    assert (v' = v) as -> by congruence. eexists. split; [done|lia].
  - rewrite lookup_insert_ne by done. by apply Hm.
Qed.

Lemma fold_left_bounded {A} (f : gmap string Z → A → gmap string Z) l m :
  (∀ m a, bounded_params m → bounded_params (f m a)) →
  bounded_params m → bounded_params (fold_left f l m).
Proof.
  intros Hf. revert m. induction l as [|a l IH]; intros m Hm; simpl; [done|].
  apply IH, Hf, Hm.
Qed.

Lemma working_params_bounded scaled di :
  bounded_params scaled → bounded_params (working_params scaled di).
Proof.
  intros H. unfold working_params.
  apply fold_left_bounded; [apply apply_boost_bounded|].
  apply fold_left_bounded; [apply apply_modifier_bounded|done].
Qed.

(** The final pass changes nothing on a bounded dictionary. *)
Lemma clamp_all_lookup m k v :
  m !! k = Some v → clamp_all m !! k = Some (Z.max 0 (Z.min 10 v)).
Proof. intros E. unfold clamp_all, round_int. by rewrite lookup_fmap, E. Qed.

Lemma clamp_all_bounded m : bounded_params m → bounded_params (clamp_all m).
Proof.
  intros Hm k Hk. destruct (Hm k Hk) as (v & E & ?).
  rewrite (clamp_all_lookup _ _ _ E). eexists. split; [done|lia].
Qed.

Lemma parameter_set_of_bounded m :
  bounded_params m →
  ∃ ps, parameter_set_of m = Ok ps ∧ validate ps = true
        ∧ ∀ k, k ∈ PARAMETER_NAMES → to_dict ps !! k = m !! k.
Proof.
  intros Hm.
  assert (∀ k, k ∈ PARAMETER_NAMES →
            ∃ v, m !! k = Some v ∧ params_getitem m k = Ok v ∧ in_bounds v = true) as G.
  { intros k Hk. destruct (Hm k Hk) as (v & E & B). exists v.
    unfold params_getitem. rewrite E. by rewrite in_bounds_spec. }
  destruct (G "exaggeration") as (e & Le & Ee & Be); [in_names|].
  destruct (G "timing") as (t & Lt & Et & Bt); [in_names|].
  destruct (G "physical") as (p & Lp & Ep & Bp); [in_names|].
  destruct (G "ruleOfThree") as (r & Lr & Er & Br); [in_names|].
  destruct (G "readability") as (rd & Lrd & Erd & Brd); [in_names|].
  destruct (G "tension") as (tn & Ltn & Etn & Btn); [in_names|].
  exists (mk_params e t p r rd tn). split; [|split].
  - unfold parameter_set_of. rewrite Ee, Et, Ep, Er, Erd, Etn. reflexivity.
  - unfold validate. cbn. by rewrite Be, Bt, Bp, Br, Brd, Btn.
  - intros k Hk. rewrite to_dict_lookup by done.
    unfold PARAMETER_NAMES in Hk.
    repeat (apply elem_of_cons in Hk as [->|Hk]); [..|by apply elem_of_nil in Hk];
      by cbn.
Qed.

(** The resolver returns, and its vector passes [validate]. *)
Lemma design_intent_to_parameters_valid di :
  ∃ ps, design_intent_to_parameters di = Ok ps ∧ validate ps = true.
Proof.
  rewrite design_intent_to_parameters_unfold.
  destruct (scaled_of_bounded di) as (scaled & -> & Hs). cbn.
  destruct (parameter_set_of_bounded (clamp_all (working_params scaled di)))
    as (ps & E & V & _).
  { by apply clamp_all_bounded, working_params_bounded. }
  eauto.
Qed.

(** ** The negative prompt *)

Local Ltac case_gates params :=
  destruct (6 <=? exaggeration params) eqn:?, (6 <=? timing params) eqn:?,
           (6 <=? physical params) eqn:?, (6 <=? ruleOfThree params) eqn:?,
           (8 <=? readability params) eqn:?, (6 <=? tension params) eqn:?.

Lemma conditional_terms_unfold params :
  conditional_terms params =
    ((if 6 <=? exaggeration params then ["realistic proportions, natural colors, subtle"] else [])
     ++ (if 6 <=? timing params then ["static composition, no motion, no rhythm"] else [])
     ++ (if 6 <=? physical params then ["realistic physics, rigid materials, no distortion"] else [])
     ++ (if 6 <=? ruleOfThree params then ["no pattern, no rhythm, random composition"] else [])
     ++ (if 8 <=? readability params then ["cluttered, confusing, unclear silhouette"] else [])
     ++ (if 6 <=? tension params then ["peaceful, calm, balanced, serene"] else []))%list.
Proof.
  unfold conditional_terms, NEGATIVE_GATES, gate_holds. cbn [List.filter fst snd].
  case_gates params; reflexivity.
Qed.

Lemma build_negative_prompt_eq params :
  build_negative_prompt params = Ok (negative_prompt_spec params).
Proof.
  unfold negative_prompt_spec, build_negative_prompt.
  rewrite conditional_terms_unfold.
  case_gates params; vm_compute; reflexivity.
Qed.

Lemma conditional_terms_NoDup params : NoDup (conditional_terms params).
Proof.
  rewrite conditional_terms_unfold.
  case_gates params; apply (bool_decide_unpack _); vm_compute; reflexivity.
Qed.

(** ** Buckets and the enhanced prompt *)

Lemma TEMPLATE_TABLES_shape tpl :
  tpl ∈ TEMPLATE_TABLES →
  map fst tpl = BUCKETS ∧ Forall (fun text => text ≠ "") (map snd tpl).
Proof.
  unfold TEMPLATE_TABLES. intros H.
  repeat (apply elem_of_cons in H as [->|H]); [..|by apply elem_of_nil in H];
    (split; [reflexivity|repeat constructor; discriminate]).
Qed.

Lemma in_bounds_cases v :
  0 <= v <= 10 →
  v = 0 ∨ v = 1 ∨ v = 2 ∨ v = 3 ∨ v = 4 ∨ v = 5 ∨ v = 6 ∨ v = 7 ∨ v = 8
  ∨ v = 9 ∨ v = 10.
Proof. lia. Qed.

(** On a table over the four buckets, [get_template] returns the phrase
    of the only bucket holding an in-range value. *)
Lemma get_template_bucket tpl v :
  map fst tpl = BUCKETS → 0 <= v <= 10 →
  unique_bucket_fragment tpl v (get_template v tpl).
Proof.
  clear unicode_upper.
  intros Hk Hv. unfold BUCKETS in Hk.
  destruct tpl as [|[k1 a] [|[k2 b] [|[k3 c] [|[k4 d] [|]]]]]; try discriminate.
  cbn in Hk. injection Hk as -> -> -> ->.
  assert (∀ b' text', (b', text') ∈ [(9, 10, a); (6, 8, b); (3, 5, c); (0, 2, d)] →
            (b', text') = (9, 10, a) ∨ (b', text') = (6, 8, b)
            ∨ (b', text') = (3, 5, c) ∨ (b', text') = (0, 2, d)) as Hin.
  { intros b' text' H.
    repeat (apply elem_of_cons in H as [->|H]); [..|by apply elem_of_nil in H]; tauto. }
  unfold unique_bucket_fragment, in_bucket.
  apply in_bounds_cases in Hv.
  repeat (destruct Hv as [->|Hv]); try subst v; vm_compute get_template.
  1-3: exists (0, 2).
  4-6: exists (3, 5).
  7-9: exists (6, 8).
  10-11: exists (9, 10).
  all: (split; [set_solver|]); (split; [cbn; lia|]);
    intros b' text' [[= -> ->] | [[= -> ->] | [[= -> ->] | [= -> ->]]]]%Hin; cbn; intros ?; (done || lia).
Qed.

Lemma get_template_nonempty tpl v :
  tpl ∈ TEMPLATE_TABLES → 0 <= v <= 10 → get_template v tpl ≠ "".
Proof.
  intros [Hk Hne]%TEMPLATE_TABLES_shape Hv.
  destruct (get_template_bucket tpl v Hk Hv) as (b & Hin & _).
  rewrite Forall_forall in Hne. apply Hne.
  apply list_elem_of_fmap. by exists (b, get_template v tpl).
Qed.

Lemma build_enhanced_prompt_all base params :
  get_template (exaggeration params) EXAGGERATION_TEMPLATES ≠ "" →
  get_template (timing params) TIMING_TEMPLATES ≠ "" →
  get_template (physical params) PHYSICAL_TEMPLATES ≠ "" →
  get_template (ruleOfThree params) RULE_OF_THREE_TEMPLATES ≠ "" →
  get_template (readability params) READABILITY_TEMPLATES ≠ "" →
  get_template (tension params) TENSION_TEMPLATES ≠ "" →
  build_enhanced_prompt base params =
    base +:+ ", " +:+
    join ", " [ get_template (exaggeration params) EXAGGERATION_TEMPLATES;
                get_template (timing params) TIMING_TEMPLATES;
                get_template (physical params) PHYSICAL_TEMPLATES;
                get_template (ruleOfThree params) RULE_OF_THREE_TEMPLATES;
                get_template (readability params) READABILITY_TEMPLATES;
                get_template (tension params) TENSION_TEMPLATES ].
Proof.
  unfold build_enhanced_prompt, append_if.
  generalize (get_template (exaggeration params) EXAGGERATION_TEMPLATES),
    (get_template (timing params) TIMING_TEMPLATES),
    (get_template (physical params) PHYSICAL_TEMPLATES),
    (get_template (ruleOfThree params) RULE_OF_THREE_TEMPLATES),
    (get_template (readability params) READABILITY_TEMPLATES),
    (get_template (tension params) TENSION_TEMPLATES).
  intros f1 f2 f3 f4 f5 f6 ? ? ? ? ? ?.
  rewrite !bool_decide_eq_false_2 by done. reflexivity.
Qed.

Lemma build_enhanced_prompt_none base params :
  get_template (exaggeration params) EXAGGERATION_TEMPLATES = "" →
  get_template (timing params) TIMING_TEMPLATES = "" →
  get_template (physical params) PHYSICAL_TEMPLATES = "" →
  get_template (ruleOfThree params) RULE_OF_THREE_TEMPLATES = "" →
  get_template (readability params) READABILITY_TEMPLATES = "" →
  get_template (tension params) TENSION_TEMPLATES = "" →
  build_enhanced_prompt base params = base.
Proof.
  unfold build_enhanced_prompt. intros -> -> -> -> -> ->. reflexivity.
Qed.

Lemma validate_fields params :
  validate params = true →
  0 <= exaggeration params <= 10 ∧ 0 <= timing params <= 10
  ∧ 0 <= physical params <= 10 ∧ 0 <= ruleOfThree params <= 10
  ∧ 0 <= readability params <= 10 ∧ 0 <= tension params <= 10.
Proof.
  unfold validate. cbn [forallb]. rewrite !andb_true_iff, !in_bounds_spec. tauto.
Qed.

(** ** The design document's renderer properties *)

(** C4. The negative prompt is the comma-and-space join of the four
    baseline terms (blurry, low quality, distorted, ugly, in that order)
    followed by the conditional terms whose gates hold, taken in the
    fixed order exaggeration>=6, timing>=6, physical>=6, ruleOfThree>=6,
    readability>=8, tension>=6, no term twice; on the all-zero vector it
    is exactly the four baseline terms.  It holds for every vector, in
    range or not. *)
Theorem negative_prompt_structure (params : SlapstickParameterSet) :
  build_negative_prompt params
    = Ok (join ", " (["blurry"; "low quality"; "distorted"; "ugly"]
                     ++ conditional_terms params))
  ∧ (∃ rest, build_negative_prompt params
             = Ok ("blurry, low quality, distorted, ugly" +:+ rest))
  ∧ conditional_terms params
    = map snd (List.filter (fun g => g.1.2 <=? g.1.1 params) NEGATIVE_GATES)
  ∧ map (fun g => g.1.2) NEGATIVE_GATES = [6; 6; 6; 6; 8; 6]
  ∧ NoDup (conditional_terms params)
  ∧ build_negative_prompt (mk_params 0 0 0 0 0 0)
    = Ok "blurry, low quality, distorted, ugly".
Proof.
  split; [apply build_negative_prompt_eq|].
  split.
  { rewrite build_negative_prompt_eq. unfold negative_prompt_spec.
    rewrite conditional_terms_unfold.
    case_gates params; eexists; vm_compute; reflexivity. }
  split; [reflexivity|]. split; [reflexivity|].
  split; [apply conditional_terms_NoDup|]. reflexivity.
Qed.

(** C6. With readability 10 and every other field 0 the negative prompt
    is the four baseline terms and the low-readability caution.  The
    gate of that term is readability >= 8, on every vector: the prompt
    is the join of the baseline terms and the conditional terms, the
    caution is among the conditional terms exactly when readability is
    at least 8, and it occurs in the text returned exactly then; at
    readability 7 the text is the baseline alone, at 8 it has the
    caution. *)
Theorem low_readability_inversion :
  build_negative_prompt (mk_params 0 0 0 0 10 0)
    = Ok "blurry, low quality, distorted, ugly, cluttered, confusing, unclear silhouette"
  ∧ dict_lookup NEGATIVE_PROMPT_COMPONENTS "low_readability"
    = Some "cluttered, confusing, unclear silhouette"
  ∧ build_negative_prompt (mk_params 0 0 0 0 7 0)
    = Ok "blurry, low quality, distorted, ugly"
  ∧ build_negative_prompt (mk_params 0 0 0 0 8 0)
    = Ok "blurry, low quality, distorted, ugly, cluttered, confusing, unclear silhouette"
  ∧ ∀ params,
      build_negative_prompt params
        = Ok (join ", " (BASELINE_NEGATIVES ++ conditional_terms params))
      ∧ ("cluttered, confusing, unclear silhouette" ∈ conditional_terms params
         ↔ 8 <= readability params)
      ∧ ∃ text,
          build_negative_prompt params = Ok text
          ∧ (contains text "cluttered, confusing, unclear silhouette" = true
             ↔ 8 <= readability params).
Proof.
  split; [reflexivity|]. split; [reflexivity|].
  split; [reflexivity|]. split; [reflexivity|].
  intros params. split; [apply build_negative_prompt_eq|]. split.
  - unfold conditional_terms. rewrite list_elem_of_In, in_map_iff. split.
    + intros (gate & Hterm & [Hgate Hholds]%filter_In).
      unfold NEGATIVE_GATES in Hgate. cbn [In] in Hgate.
      destruct Hgate as [<- | [<- | [<- | [<- | [<- | [<- | []]]]]]];
        try discriminate Hterm.
      by apply Z.leb_le in Hholds.
    + intros Hle. exists (readability, 8, "cluttered, confusing, unclear silhouette").
      split; [reflexivity|]. apply filter_In. split.
      * unfold NEGATIVE_GATES. cbn [In]. tauto.
      * by apply Z.leb_le.
  - rewrite build_negative_prompt_eq. unfold negative_prompt_spec.
    rewrite conditional_terms_unfold. eexists. split; [reflexivity|].
    case_gates params;
      match goal with
      | H : (8 <=? readability params) = true |- _ => apply Z.leb_le in H
      | H : (8 <=? readability params) = false |- _ => apply Z.leb_gt in H
      end;
      match goal with
      | |- contains ?text ?term = true ↔ _ =>
          let b := eval vm_compute in (contains text term) in
          replace (contains text term) with b by (vm_compute; reflexivity)
      end;
      (split; [intros ?; (assumption || discriminate)|intros ?; (reflexivity || lia)]).
Qed.

(** C5. For a vector within bounds the enhanced prompt is the base
    prompt, a comma and a space, and the join of exactly six fragments
    in the order exaggeration, timing, physical, ruleOfThree,
    readability, tension, each the phrase of the one bucket among
    [9,10], [6,8], [3,5], [0,2] that holds the value; when no lookup
    gives a fragment the base prompt comes back unchanged. *)
Theorem enhanced_prompt_structure (base_prompt : string)
    (params : SlapstickParameterSet) :
  (validate params = true →
   ∃ f1 f2 f3 f4 f5 f6,
     unique_bucket_fragment EXAGGERATION_TEMPLATES (exaggeration params) f1
     ∧ unique_bucket_fragment TIMING_TEMPLATES (timing params) f2
     ∧ unique_bucket_fragment PHYSICAL_TEMPLATES (physical params) f3
     ∧ unique_bucket_fragment RULE_OF_THREE_TEMPLATES (ruleOfThree params) f4
     ∧ unique_bucket_fragment READABILITY_TEMPLATES (readability params) f5
     ∧ unique_bucket_fragment TENSION_TEMPLATES (tension params) f6
     ∧ build_enhanced_prompt base_prompt params
       = base_prompt +:+ ", " +:+ join ", " [f1; f2; f3; f4; f5; f6])
  ∧ (get_template (exaggeration params) EXAGGERATION_TEMPLATES = "" →
     get_template (timing params) TIMING_TEMPLATES = "" →
     get_template (physical params) PHYSICAL_TEMPLATES = "" →
     get_template (ruleOfThree params) RULE_OF_THREE_TEMPLATES = "" →
     get_template (readability params) READABILITY_TEMPLATES = "" →
     get_template (tension params) TENSION_TEMPLATES = "" →
     build_enhanced_prompt base_prompt params = base_prompt).
Proof.
  split; [|apply build_enhanced_prompt_none].
  intros (He & Ht & Hp & Hr & Hrd & Htn)%validate_fields.
  do 6 eexists.
  repeat (split; [apply get_template_bucket; [reflexivity|eassumption]|]).
  apply build_enhanced_prompt_all;
    (apply get_template_nonempty; [unfold TEMPLATE_TABLES; repeat constructor|done]).
Qed.

Lemma enhanced_prompt_structure_witness :
  (∃ f1 f2 f3 f4 f5 f6,
     unique_bucket_fragment EXAGGERATION_TEMPLATES 5 f1
     ∧ unique_bucket_fragment TIMING_TEMPLATES 5 f2
     ∧ unique_bucket_fragment PHYSICAL_TEMPLATES 5 f3
     ∧ unique_bucket_fragment RULE_OF_THREE_TEMPLATES 5 f4
     ∧ unique_bucket_fragment READABILITY_TEMPLATES 5 f5
     ∧ unique_bucket_fragment TENSION_TEMPLATES 5 f6
     ∧ build_enhanced_prompt "A corporate office" (mk_params 5 5 5 5 5 5)
       = "A corporate office" +:+ ", " +:+ join ", " [f1; f2; f3; f4; f5; f6])
  ∧ build_enhanced_prompt "A corporate office" (mk_params 11 11 11 11 11 11)
    = "A corporate office".
Proof.
  split.
  - apply (proj1 (enhanced_prompt_structure "A corporate office"
                    (mk_params 5 5 5 5 5 5))).
    reflexivity.
  - apply (proj2 (enhanced_prompt_structure "A corporate office"
                    (mk_params 11 11 11 11 11 11))); reflexivity.
Defined.

(** ** The resolver's properties *)

(** C3. Architecture, tense, [suspense], extreme resolves to
    exaggeration 7, timing 4, physical 5, ruleOfThree 7, readability 7,
    tension 10: the preset scaled by 1.0 is the preset, the tense deltas
    give tension 10 (from 11), physical 5, readability 7, and the
    suspense boost leaves tension at 10. *)
Theorem office_scenario :
  dict_lookup SUBJECT_TYPE_PRESETS ARCHITECTURE = Some (mk_params 7 4 6 7 6 8)
  ∧ scaled_of office_intent = Ok (to_dict (mk_params 7 4 6 7 6 8))
  ∧ dict_lookup EMOTIONAL_TONE_MODIFIERS TENSE
    = Some [("tension", 3); ("physical", -1); ("readability", 1)]
  ∧ fold_left apply_modifier [("tension", 3); ("physical", -1); ("readability", 1)]
      (to_dict (mk_params 7 4 6 7 6 8))
    = to_dict (mk_params 7 4 5 7 7 10)
  ∧ dict_lookup VISUAL_PRIORITY_BOOSTS SUSPENSE = Some "tension"
  ∧ apply_boost (to_dict (mk_params 7 4 5 7 7 10)) SUSPENSE
    = to_dict (mk_params 7 4 5 7 7 10)
  ∧ design_intent_to_parameters office_intent = Ok (mk_params 7 4 5 7 7 10).
Proof. repeat split; vm_compute; reflexivity. Qed.

Lemma dict_lookup_refers {K V : Type} `{EqDecision K} (s : store)
    (shape : V → object) (tbl : list (K * loc)) (shipped : list (K * V)) k :
  Forall2 (refers s shape) tbl shipped →
  match dict_lookup tbl k, dict_lookup shipped k with
  | Some l, Some v => heap s !! l = Some (shape v)
  | None, None => True
  | _, _ => False
  end.
Proof.
  induction 1 as [|[k1 l] [k2 v] tbl shipped [Hk Hl] _ IH]; cbn; [done|].
  cbn in Hk, Hl. subst k2. by destruct (decide (k1 = k)).
Qed.

Lemma dict_get_refers {K V : Type} `{EqDecision K} (s : store)
    (shape : V → object) (tbl : list (K * loc)) (shipped : list (K * V)) k l v :
  Forall2 (refers s shape) tbl shipped →
  heap s !! l = Some (shape v) →
  heap s !! dict_get tbl k l = Some (shape (dict_get shipped k v)).
Proof.
  intros H Hl. pose proof (dict_lookup_refers s shape tbl shipped k H) as Hk.
  unfold dict_get.
  by destruct (dict_lookup tbl k), (dict_lookup shipped k).
Qed.

Lemma dict_getitem_refers {K V : Type} `{EqDecision K} (s : store)
    (shape : V → object) (tbl : list (K * loc)) (shipped : list (K * V))
    repr k v :
  Forall2 (refers s shape) tbl shipped →
  dict_lookup shipped k = Some v →
  ∃ l, dict_getitem repr tbl k = Ok l ∧ heap s !! l = Some (shape v).
Proof.
  intros H Hv. pose proof (dict_lookup_refers s shape tbl shipped k H) as Hk.
  unfold dict_getitem. rewrite Hv in Hk.
  destruct (dict_lookup tbl k) as [l|]; [eauto|done].
Qed.

Lemma refers_weaken {K V : Type} (s t : store) (shape : V → object)
    (tbl : list (K * loc)) (shipped : list (K * V)) :
  heap s ⊆ heap t →
  Forall2 (refers s shape) tbl shipped → Forall2 (refers t shape) tbl shipped.
Proof.
  intros Hsub H. eapply Forall2_impl; [exact H|].
  intros entry item [? Hl]. split; [done|]. by eapply lookup_weaken.
Qed.

Lemma fresh_heap (h : gmap loc object) : h !! fresh (dom h) = None.
Proof. apply not_elem_of_dom, is_fresh. Qed.

Lemma heap_grows (h : gmap loc object) o : h ⊆ <[fresh (dom h) := o]> h.
Proof. apply insert_subseteq, fresh_heap. Qed.

Lemma assign_eq l f s d :
  heap s !! l = Some (ParamsDict d) →
  assign l f s = Ok (with_heap (<[l := ParamsDict (f d)]> (heap s)) s).
Proof. intros E. unfold assign, entries_of. by rewrite E. Qed.

Lemma with_heap_id s : with_heap (heap s) s = s.
Proof. by destruct s. Qed.

(** A loop of assignments to one dictionary: the dictionary ends as the
    fold of the loop body; no other object is touched. *)
Lemma for_each_assign {A : Type}
    (g : list (VisualPriority * string) → A → gmap string Z → gmap string Z)
    l (items : list A) s d :
  heap s !! l = Some (ParamsDict d) →
  for_each (fun a s => assign l (g (visual_priority_boosts s) a) s) items s
  = Ok (with_heap
          (<[l := ParamsDict
                    (fold_left (fun d a => g (visual_priority_boosts s) a d) items d)]>
             (heap s)) s).
Proof.
  revert s d. induction items as [|a items IH]; intros s d E; cbn.
  - by rewrite insert_id, with_heap_id.
  - rewrite (assign_eq _ _ _ _ E). cbn [mbind result_bind].
    rewrite (IH _ (g (visual_priority_boosts s) a d)) by apply lookup_insert_eq.
    cbn [heap with_heap visual_priority_boosts]. by rewrite insert_insert_eq.
Qed.

Lemma INTENSITY_MULTIPLIERS_moderate :
  dict_getitem member_value INTENSITY_MULTIPLIERS MODERATE = Ok (PyFloat.literal 6 10).
Proof. reflexivity. Qed.

Lemma apply_boost_from_shipped :
  apply_boost_from VISUAL_PRIORITY_BOOSTS = apply_boost.
Proof. reflexivity. Qed.

(** What one call does on a store holding the module's tables. *)
Lemma design_intent_to_parameters_on_spec design_intent s :
  module_state s →
  ∃ ps l t,
    design_intent_to_parameters_on design_intent s = Ok (l, t)
    ∧ design_intent_to_parameters design_intent = Ok ps
    ∧ heap s !! l = None
    ∧ heap t !! l = Some (ParameterSetObject ps)
    ∧ heap s ⊆ heap t
    ∧ with_heap (heap s) t = s.
Proof.
  intros (Hp & Hm & Ht & Hb).
  destruct (design_intent_to_parameters_valid design_intent) as (ps & E & _).
  exists ps. rewrite E. rewrite design_intent_to_parameters_unfold in E.
  destruct (scaled_of_bounded design_intent) as (scaled & Es & _).
  rewrite Es in E. cbn [mbind result_bind] in E.
  unfold design_intent_to_parameters_on.
  destruct (dict_getitem_refers s ParameterSetObject _ _ member_value SCENE
              (mk_params 6 7 7 6 6 7) Hp) as (scene & -> & Hscene); [reflexivity|].
  cbn [mbind result_bind].
  rewrite Hm, INTENSITY_MULTIPLIERS_moderate. cbn [mbind result_bind].
  unfold fields_of.
  rewrite (dict_get_refers s ParameterSetObject _ _ (subject_type design_intent)
             _ _ Hp Hscene).
  cbn [mbind result_bind].
  fold (scaled_of design_intent). rewrite Es. cbn [mbind result_bind].
  unfold allocate. cbn [heap with_heap emotional_tone_modifiers].
  set (params := fresh (dom (heap s))).
  set (h1 := <[params := ParamsDict scaled]> (heap s)).
  set (empty := fresh (dom h1)).
  set (h2 := <[empty := ModifierDict []]> h1).
  assert (heap s ⊆ h1) as S1 by apply heap_grows.
  assert (h1 ⊆ h2) as S2 by apply heap_grows.
  assert (h2 !! params = Some (ParamsDict scaled)) as Hparams.
  { eapply lookup_weaken; [apply lookup_insert_eq|exact S2]. }
  assert (heap (with_heap h2 s) ⊆ h2) as S12 by done.
  pose proof (refers_weaken s (with_heap h2 s) ModifierDict _ _
                (transitivity S1 S2) Ht) as Ht2.
  unfold items_of.
  rewrite (dict_get_refers (with_heap h2 s) ModifierDict _ _
             (emotional_tone design_intent) empty [] Ht2)
    by apply lookup_insert_eq.
  cbn [mbind result_bind].
  rewrite (for_each_assign (fun _ item d => apply_modifier d item) params _ _ scaled)
    by exact Hparams.
  cbn [mbind result_bind heap with_heap].
  rewrite (for_each_assign (fun boosts priority d => apply_boost_from boosts d priority)
             params _ _ _ (lookup_insert_eq _ _ _)).
  cbn [mbind result_bind heap with_heap visual_priority_boosts].
  rewrite Hb, apply_boost_from_shipped, insert_insert_eq.
  rewrite (assign_eq _ _ _ _ (lookup_insert_eq _ _ _)).
  cbn [mbind result_bind heap with_heap]. rewrite insert_insert_eq.
  unfold entries_of. cbn [heap with_heap]. rewrite lookup_insert_eq.
  cbn [mbind result_bind].
  change (fold_left _ (visual_priorities design_intent) (fold_left _ _ scaled))
    with (working_params scaled design_intent).
  rewrite E.
  cbn [mbind result_bind heap with_heap].
  set (h3 := <[params := _]> h2).
  assert (heap s ⊆ h3) as S3.
  { apply insert_subseteq_r; [apply fresh_heap|by transitivity h1]. }
  do 2 eexists. split; [reflexivity|]. split; [reflexivity|].
  cbn [heap with_heap].
  split; [|split; [apply lookup_insert_eq|split]].
  - assert (h3 !! fresh (dom h3) = None) as F by apply fresh_heap.
    destruct (heap s !! fresh (dom h3)) eqn:G; [|done].
    by rewrite (lookup_weaken _ _ _ _ G S3) in F.
  - transitivity h3; [done|apply heap_grows].
  - change (with_heap (heap s) s = s). apply with_heap_id.
Qed.

(** [module_state] looks at the class attributes and at the objects
    they lead to, at nothing else. *)
Lemma module_state_weaken s t :
  module_state s → heap s ⊆ heap t →
  subject_type_presets t = subject_type_presets s →
  intensity_multipliers t = intensity_multipliers s →
  emotional_tone_modifiers t = emotional_tone_modifiers s →
  visual_priority_boosts t = visual_priority_boosts s →
  module_state t.
Proof.
  intros (Hp & Hm & Ht & Hb) Hsub Ep Em Et Eb. unfold module_state.
  rewrite Ep, Em, Et, Eb.
  repeat apply conj; [by eapply refers_weaken|done|by eapply refers_weaken|done].
Qed.

Lemma module_state_preserved s t :
  module_state s → heap s ⊆ heap t → with_heap (heap s) t = s → module_state t.
Proof.
  intros Hs Hsub Hw.
  apply (module_state_weaken s t Hs Hsub).
  - exact (f_equal subject_type_presets Hw).
  - exact (f_equal intensity_multipliers Hw).
  - exact (f_equal emotional_tone_modifiers Hw).
  - exact (f_equal visual_priority_boosts Hw).
Qed.

Lemma module_store_state : module_state module_store.
Proof.
  unfold module_state. cbn [subject_type_presets emotional_tone_modifiers
    intensity_multipliers visual_priority_boosts module_store].
  split; [|split; [reflexivity|split; [|reflexivity]]];
    repeat constructor.
Qed.

Lemma later_store_state : module_state later_store.
Proof.
  unfold later_store.
  destruct (design_intent_to_parameters_on_spec
              {| subject_type := ABSTRACT; emotional_tone := CHAOTIC;
                 visual_priorities := [DISTORTION; IMPACT; DISTORTION];
                 intensity_level := STRONG |} module_store module_store_state)
    as (ps & l & t & -> & _ & _ & _ & Hsub & Hs).
  apply (module_state_weaken t); try reflexivity.
  exact (module_state_preserved module_store t module_store_state Hsub Hs).
Qed.

(** C8. On any store where the class attributes hold what the module
    ships, the resolver returns for every intent, and two calls with
    the same intent, made on two such stores that may differ in
    everything else (the objects other calls left behind, the clock,
    the state of the random generator), return instances with the same
    six values.  A call changes no object that existed before it and
    rebinds no class attribute, so the store it leaves is again such a
    store: the same holds for every later call. *)
Theorem resolver_total_deterministic (design_intent : DesignIntent)
    (s s' : store) :
  module_state s → module_state s' →
  ∃ ps l l' t t',
    design_intent_to_parameters_on design_intent s = Ok (l, t)
    ∧ design_intent_to_parameters_on design_intent s' = Ok (l', t')
    ∧ heap t !! l = Some (ParameterSetObject ps)
    ∧ heap t' !! l' = Some (ParameterSetObject ps)
    ∧ design_intent_to_parameters design_intent = Ok ps
    ∧ heap s !! l = None ∧ heap s' !! l' = None
    ∧ heap s ⊆ heap t ∧ heap s' ⊆ heap t'
    ∧ with_heap (heap s) t = s ∧ with_heap (heap s') t' = s'
    ∧ module_state t ∧ module_state t'.
Proof.
  intros Hs Hs'.
  destruct (design_intent_to_parameters_on_spec design_intent s Hs)
    as (ps & l & t & R & E & Hl & Hps & Hsub & Hw).
  destruct (design_intent_to_parameters_on_spec design_intent s' Hs')
    as (ps' & l' & t' & R' & E' & Hl' & Hps' & Hsub' & Hw').
  assert (ps' = ps) as -> by congruence.
  exists ps, l, l', t, t'.
  split; [exact R|]. split; [exact R'|]. split; [exact Hps|].
  split; [exact Hps'|]. split; [exact E|]. split; [exact Hl|].
  split; [exact Hl'|]. split; [exact Hsub|]. split; [exact Hsub'|].
  split; [exact Hw|]. split; [exact Hw'|].
  split; [exact (module_state_preserved s t Hs Hsub Hw)
         |exact (module_state_preserved s' t' Hs' Hsub' Hw')].
Qed.

Lemma resolver_total_deterministic_witness :
  ∃ ps l l' t t',
    design_intent_to_parameters_on office_intent module_store = Ok (l, t)
    ∧ design_intent_to_parameters_on office_intent later_store = Ok (l', t')
    ∧ heap t !! l = Some (ParameterSetObject ps)
    ∧ heap t' !! l' = Some (ParameterSetObject ps)
    ∧ design_intent_to_parameters office_intent = Ok ps
    ∧ heap module_store !! l = None ∧ heap later_store !! l' = None
    ∧ heap module_store ⊆ heap t ∧ heap later_store ⊆ heap t'
    ∧ with_heap (heap module_store) t = module_store
    ∧ with_heap (heap later_store) t' = later_store
    ∧ module_state t ∧ module_state t'.
Proof.
  apply (resolver_total_deterministic office_intent module_store later_store).
  - apply module_store_state.
  - apply later_store_state.
Defined.

Lemma apply_boost_target m p :
  bounded_params m →
  ∃ target v, dict_lookup VISUAL_PRIORITY_BOOSTS p = Some target
              ∧ target ∈ PARAMETER_NAMES
              ∧ m !! target = Some v
              ∧ apply_boost m p !! target = Some (Z.min 10 (v + 2)).
Proof.
  intros Hm.
  assert (∃ target, dict_lookup VISUAL_PRIORITY_BOOSTS p = Some target
                    ∧ target ≠ "" ∧ target ∈ PARAMETER_NAMES) as (t & E & Hne & Hin).
  { destruct p; eexists; (split; [reflexivity|]); (split; [done|]);
      in_names. }
  destruct (Hm t Hin) as (v & Hv & _). exists t, v.
  repeat (split; [done|]).
  unfold apply_boost. rewrite E, bool_decide_eq_false_2, Hv by done.
  apply lookup_insert_eq.
Qed.

(** C7. Appending a priority to an intent's list never lowers the final
    value of the parameter that priority targets. *)
Theorem boost_monotone (design_intent : DesignIntent) (p : VisualPriority) :
  ∃ target without with_p v v',
    dict_lookup VISUAL_PRIORITY_BOOSTS p = Some target
    ∧ design_intent_to_parameters design_intent = Ok without
    ∧ design_intent_to_parameters (with_priority design_intent p) = Ok with_p
    ∧ to_dict without !! target = Some v
    ∧ to_dict with_p !! target = Some v'
    ∧ v <= v'.
Proof.
  rewrite !design_intent_to_parameters_unfold.
  destruct (scaled_of_bounded design_intent) as (scaled & E & Hs).
  change (scaled_of (with_priority design_intent p)) with (scaled_of design_intent).
  rewrite E. cbn [mbind result_bind].
  pose proof (working_params_bounded scaled design_intent Hs) as Hw.
  assert (working_params scaled (with_priority design_intent p)
          = apply_boost (working_params scaled design_intent) p) as ->.
  { unfold working_params, with_priority. cbn. by rewrite fold_left_app. }
  set (m := working_params scaled design_intent) in *.
  destruct (apply_boost_target m p Hw) as (t & v & Et & Hin & Hv & Hb).
  destruct (parameter_set_of_bounded (clamp_all m)) as (ps & Eps & _ & Lps);
    [by apply clamp_all_bounded|].
  destruct (parameter_set_of_bounded (clamp_all (apply_boost m p)))
    as (ps' & Eps' & _ & Lps');
    [by apply clamp_all_bounded, apply_boost_bounded|].
  exists t, ps, ps', (Z.max 0 (Z.min 10 v)), (Z.max 0 (Z.min 10 (Z.min 10 (v + 2)))).
  repeat (split; [done|]).
  split; [by rewrite Lps, (clamp_all_lookup _ _ _ Hv)|].
  split; [by rewrite Lps', (clamp_all_lookup _ _ _ Hb)|]. lia.
Qed.

(** ** The tools *)

Lemma enum_getitem_cases (T : Type) `{PyEnum T} name :
  (∃ m, enum_getitem T name = Ok m)
  ∨ enum_getitem T name = Raise (KeyError name).
Proof. unfold enum_getitem. destruct (find _ _); eauto. Qed.

(** The conversion loop ends with the list, or returns the error of the
    first string that names no priority; it never raises. *)
Lemma convert_priorities_cases visual_priorities priorities :
  (∃ ps, convert_priorities visual_priorities priorities = Ok (inr ps))
  ∨ (∃ s, s ∈ visual_priorities
          ∧ enum_getitem VisualPriority (upper s) = Raise (KeyError (upper s))
          ∧ convert_priorities visual_priorities priorities
            = Ok (inl (ErrorResponse ("Invalid visual priority: " +:+ format s)))).
Proof.
  revert priorities.
  induction visual_priorities as [|s rest IH]; intros priorities; cbn.
  - left. eauto.
  - destruct (enum_getitem_cases VisualPriority (upper s)) as [[m E]|E];
      rewrite E; cbn.
    + destruct (IH (priorities ++ [m])%list) as [?|(s' & ? & ? & ?)]; [by left|].
      right. exists s'. split; [set_solver|done].
    + right. exists s. split; [set_solver|done].
Qed.

Lemma build_negative_prompt_total params :
  ∃ text, build_negative_prompt params = Ok text.
Proof. rewrite build_negative_prompt_eq. eauto. Qed.

(** Every way a call of [enhance_with_intent] can end. *)
Lemma enhance_with_intent_cases base_prompt subject_type emotional_tone
    visual_priorities intensity :
  let r := enhance_with_intent base_prompt subject_type emotional_tone
             visual_priorities intensity in
  r = Raise (KeyError (upper subject_type))
  ∨ r = Raise (KeyError (upper emotional_tone))
  ∨ r = Raise (KeyError (upper intensity))
  ∨ (∃ s, s ∈ visual_priorities
          ∧ r = Ok (ErrorResponse ("Invalid visual priority: " +:+ format s)))
  ∨ r = Raise (AttributeError "'str' object has no attribute 'value'")
  ∨ (∃ params enhanced negative summary,
       validate params = true
       ∧ r = Ok (IntentResponse (to_dict params) enhanced negative summary)).
Proof.
  cbn zeta. unfold enhance_with_intent.
  destruct (enum_getitem_cases SubjectType (upper subject_type)) as [[subject ->]| ->];
    [|by left].
  destruct (enum_getitem_cases EmotionalTone (upper emotional_tone)) as [[emotion ->]| ->];
    [|by right; left].
  destruct (enum_getitem_cases IntensityLevel (upper intensity)) as [[level ->]| ->];
    [|by right; right; left].
  cbn [mbind result_bind].
  destruct (convert_priorities_cases visual_priorities []) as [[ps ->]|(s & Hs & _ & ->)].
  - cbn [mbind result_bind].
    destruct (design_intent_to_parameters_valid
                (Build_DesignIntent subject emotion ps level)) as (params & -> & V).
    cbn [mbind result_bind]. unfold validate_parameters. rewrite V. cbn [negb].
    destruct (build_negative_prompt_total params) as (text & ->).
    destruct emotional_tone as [tone|value formatted].
    + do 4 right. left. reflexivity.
    + do 5 right. exists params. do 3 eexists. split; [exact V|reflexivity].
  - do 3 right. left. exists s. by split.
Qed.

Lemma clamp_in_bounds x : in_bounds (Z.max 0 (Z.min 10 x)) = true.
Proof. apply in_bounds_spec. lia. Qed.

Lemma clamped_parameter_set_valid e t p r rd tn :
  ∃ params, clamped_parameter_set e t p r rd tn = Ok params
            ∧ validate params = true.
Proof.
  eexists. split; [reflexivity|].
  unfold validate. cbn [forallb exaggeration timing physical ruleOfThree
                               readability tension mk_params].
  rewrite !clamp_in_bounds. reflexivity.
Qed.

Lemma enhance_with_parameters_ok base_prompt e t p r rd tn :
  ∃ params text,
    clamped_parameter_set e t p r rd tn = Ok params
    ∧ validate params = true
    ∧ build_negative_prompt params = Ok text
    ∧ enhance_with_parameters base_prompt e t p r rd tn
      = Ok (ParametersResponse (to_dict params)
              (build_enhanced_prompt base_prompt params) text).
Proof.
  destruct (clamped_parameter_set_valid e t p r rd tn) as (params & E & V).
  destruct (build_negative_prompt_total params) as (text & N).
  exists params, text. repeat (split; [done|]).
  unfold enhance_with_parameters. rewrite E. cbn [mbind result_bind].
  rewrite V. cbn [negb]. rewrite N. reflexivity.
Qed.

Lemma describe_parameters_ok e t p r rd tn :
  ∃ params,
    clamped_parameter_set e t p r rd tn = Ok params
    ∧ validate params = true
    ∧ describe_parameters e t p r rd tn
      = Ok (DescribeResponse (parameters_to_enhancement_description params)
              (to_dict params)).
Proof.
  destruct (clamped_parameter_set_valid e t p r rd tn) as (params & E & V).
  exists params. repeat (split; [done|]).
  unfold describe_parameters. rewrite E. reflexivity.
Qed.

(** C1. Whatever the input, the vector a tool builds and returns has
    all six fields within [[0,10]]: the resolver's vector on the intent
    path, the clamped vector of [enhance_with_parameters] and of
    [describe_parameters]. *)
Theorem parameter_vectors_bounded :
  (∀ design_intent, ∃ params,
     design_intent_to_parameters design_intent = Ok params
     ∧ validate params = true ∧ vector_bounded (to_dict params))
  ∧ (∀ base_prompt subject_type emotional_tone visual_priorities intensity,
       response_bounded
         (enhance_with_intent base_prompt subject_type emotional_tone
            visual_priorities intensity))
  ∧ (∀ base_prompt e t p r rd tn, ∃ d enhanced negative,
       enhance_with_parameters base_prompt e t p r rd tn
         = Ok (ParametersResponse d enhanced negative)
       ∧ vector_bounded d)
  ∧ (∀ e t p r rd tn, ∃ descriptions d,
       describe_parameters e t p r rd tn = Ok (DescribeResponse descriptions d)
       ∧ vector_bounded d).
Proof.
  split; [|split; [|split]].
  - intros di. destruct (design_intent_to_parameters_valid di) as (ps & E & V).
    exists ps. repeat (split; [done|]). by apply to_dict_bounded.
  - intros base st tone prios i.
    destruct (enhance_with_intent_cases base st tone prios i)
      as [-> | [-> | [-> | [(s & _ & ->) | [-> | (ps & ? & ? & ? & V & ->)]]]]];
      try exact I.
    by apply to_dict_bounded.
  - intros base e t p r rd tn.
    destruct (enhance_with_parameters_ok base e t p r rd tn)
      as (ps & text & _ & V & _ & ->).
    do 3 eexists. split; [reflexivity|]. by apply to_dict_bounded.
  - intros e t p r rd tn.
    destruct (describe_parameters_ok e t p r rd tn) as (ps & _ & V & ->).
    do 2 eexists. split; [reflexivity|]. by apply to_dict_bounded.
Qed.

(** C9. The bound checks after clamping never fire: the clamped vector
    of [enhance_with_parameters] passes [validate], so the call never
    returns "Parameters must be between 0 and 10"; the resolver's vector
    passes [validate_parameters], so [enhance_with_intent] never returns
    "Invalid parameters generated". *)
Theorem bound_checks_unreachable :
  (∀ e t p r rd tn, ∃ params,
     clamped_parameter_set e t p r rd tn = Ok params ∧ validate params = true)
  ∧ (∀ base_prompt e t p r rd tn,
       returns_error "Parameters must be between 0 and 10"
         (enhance_with_parameters base_prompt e t p r rd tn) = false)
  ∧ (∀ design_intent, ∃ params,
       design_intent_to_parameters design_intent = Ok params
       ∧ validate_parameters params = true)
  ∧ (∀ base_prompt subject_type emotional_tone visual_priorities intensity,
       returns_error "Invalid parameters generated"
         (enhance_with_intent base_prompt subject_type emotional_tone
            visual_priorities intensity) = false).
Proof.
  split; [apply clamped_parameter_set_valid|]. split; [|split].
  - intros base e t p r rd tn.
    destruct (enhance_with_parameters_ok base e t p r rd tn)
      as (ps & text & _ & _ & _ & ->). reflexivity.
  - apply design_intent_to_parameters_valid.
  - intros base st tone prios i.
    destruct (enhance_with_intent_cases base st tone prios i)
      as [-> | [-> | [-> | [(s & _ & ->) | [-> | (ps & ? & ? & ? & _ & ->)]]]]];
      reflexivity.
Qed.

(** When every option names a member the call reaches the summary line,
    which reads [.value] of the argument [emotional_tone]: an exact
    [str] has none and the call ends by an [AttributeError], which
    [except ValueError] lets through; a member has one and the call
    returns its result dictionary. *)
Lemma enhance_with_intent_known_options base_prompt subject_type
    emotional_tone visual_priorities intensity subject emotion level ps :
  enum_getitem SubjectType (upper subject_type) = Ok subject →
  enum_getitem EmotionalTone (upper emotional_tone) = Ok emotion →
  enum_getitem IntensityLevel (upper intensity) = Ok level →
  convert_priorities visual_priorities [] = Ok (inr ps) →
  ∃ params,
    design_intent_to_parameters (Build_DesignIntent subject emotion ps level)
    = Ok params
    ∧ enhance_with_intent base_prompt subject_type emotional_tone
        visual_priorities intensity
      = match emotional_tone with
        | Str _ => Raise (AttributeError "'str' object has no attribute 'value'")
        | Member value _ =>
            Ok (IntentResponse (to_dict params)
                  (build_enhanced_prompt base_prompt params)
                  (negative_prompt_spec params)
                  ("Applied " +:+ member_value level +:+ " " +:+ value
                   +:+ " treatment to " +:+ format subject_type
                   +:+ ", emphasizing "
                   +:+ match ps with
                       | [] => "none specified"
                       | _ => join ", " (map member_value ps)
                       end))
        end.
Proof.
  intros Es Ee El Ep. unfold enhance_with_intent. rewrite Es, Ee, El.
  cbn [mbind result_bind]. rewrite Ep. cbn [mbind result_bind].
  destruct (design_intent_to_parameters_valid
              (Build_DesignIntent subject emotion ps level)) as (params & E & V).
  exists params. split; [done|]. rewrite E.
  cbn [mbind result_bind]. unfold validate_parameters. rewrite V. cbn [negb].
  rewrite build_negative_prompt_eq. by destruct emotional_tone.
Qed.

Example office_call_raises :
  enhance_with_intent "A corporate office" "architecture" "tense" [Str "suspense"]
    "extreme"
  = Raise (AttributeError "'str' object has no attribute 'value'").
Proof. vm_compute. reflexivity. Qed.

(** An unknown subject type leaves the call by a [KeyError], which the
    [except ValueError] clause does not catch. *)
Lemma unknown_subject_type_raises base_prompt subject_type emotional_tone
    visual_priorities intensity :
  enum_getitem SubjectType (upper subject_type)
    = Raise (KeyError (upper subject_type)) →
  enhance_with_intent base_prompt subject_type emotional_tone
    visual_priorities intensity = Raise (KeyError (upper subject_type)).
Proof. intros E. unfold enhance_with_intent. rewrite E. reflexivity. Qed.

(** C2, at four inputs.  A subject type, an emotional tone or an
    intensity that names no member ends the call with an uncaught
    [KeyError]; only a bad visual priority gives an error response. *)
Theorem unknown_option_outcomes :
  enhance_with_intent "A corporate office" "castle" "tense" [Str "suspense"]
      "extreme" = Raise (KeyError "CASTLE")
  ∧ enhance_with_intent "A corporate office" "architecture" "gloomy"
      [Str "suspense"] "extreme" = Raise (KeyError "GLOOMY")
  ∧ enhance_with_intent "A corporate office" "architecture" "tense"
      [Str "suspense"] "maximum" = Raise (KeyError "MAXIMUM")
  ∧ enhance_with_intent "A corporate office" "architecture" "tense"
      [Str "suspense"; Str "colour"] "extreme"
    = Ok (ErrorResponse "Invalid visual priority: colour").
Proof. repeat split; vm_compute; reflexivity. Qed.

(** ** Scaling and the tie rule *)


(** * Further properties of the code *)

(** ** Option strings and the enums *)

Section EnumLookup.
Context (T : Type) `{PyEnum T}.

Lemma enum_getitem_known s :
  known T s = true → ∃ m, enum_getitem T (upper s) = Ok m.
Proof.
  unfold known, enum_getitem. intros Hk%bool_decide_eq_true.
  destruct (find _ _) as [m|] eqn:F; [eauto|].
  apply list_elem_of_fmap in Hk as (m & Hm & Hin).
  apply list_elem_of_In in Hin.
  pose proof (find_none _ _ F m Hin) as Hn. cbn in Hn.
  by apply bool_decide_eq_false in Hn.
Qed.

Lemma enum_getitem_unknown s :
  known T s = false → enum_getitem T (upper s) = Raise (KeyError (upper s)).
Proof.
  unfold known, enum_getitem. intros Hk%bool_decide_eq_false.
  destruct (find _ _) as [m|] eqn:F; [|done].
  apply find_some in F as [Hin Hn%bool_decide_eq_true].
  destruct Hk. apply list_elem_of_fmap. exists m. split; [done|].
  by apply list_elem_of_In.
Qed.

Lemma enum_getitem_name name m :
  enum_getitem T name = Ok m → member_name m = name.
Proof.
  unfold enum_getitem. destruct (find _ _) as [m'|] eqn:F; [|done].
  intros [= <-]. by apply find_some in F as [_ ?%bool_decide_eq_true].
Qed.
End EnumLookup.

(** Every string being known, the loop builds the list and returns
    nothing early. *)
Lemma convert_priorities_known visual_priorities priorities :
  Forall (fun s => known VisualPriority s = true) visual_priorities →
  ∃ ps, convert_priorities visual_priorities priorities = Ok (inr ps).
Proof.
  intros Hall. revert priorities.
  induction Hall as [|s rest Hs _ IH]; intros priorities; cbn; [eauto|].
  destruct (enum_getitem_known VisualPriority s Hs) as (m & ->). cbn. apply IH.
Qed.

(** The loop stops at the first unknown string with its error. *)
Lemma convert_priorities_first_unknown good bad rest priorities :
  Forall (fun s => known VisualPriority s = true) good →
  known VisualPriority bad = false →
  convert_priorities (good ++ bad :: rest) priorities
  = Ok (inl (ErrorResponse ("Invalid visual priority: " +:+ format bad))).
Proof.
  intros Hgood Hbad. revert priorities.
  induction Hgood as [|s good Hs _ IH]; intros priorities; cbn.
  - by rewrite (enum_getitem_unknown VisualPriority bad Hbad).
  - destruct (enum_getitem_known VisualPriority s Hs) as (m & ->). cbn. apply IH.
Qed.

Lemma first_unknown_option_None subject_type emotional_tone intensity :
  first_unknown_option subject_type emotional_tone intensity = None →
  known SubjectType subject_type = true
  ∧ known EmotionalTone emotional_tone = true
  ∧ known IntensityLevel intensity = true.
Proof.
  unfold first_unknown_option.
  destruct (known SubjectType _), (known EmotionalTone _), (known IntensityLevel _);
    cbn; done.
Qed.

(** X1. With every option and every visual priority naming a member and
    [emotional_tone] an exact [str], the call ends by the
    [AttributeError] of the summary line, which reads
    [emotional_tone.value]. *)
Theorem exact_str_tone_raises base_prompt subject_type (tone : string)
    visual_priorities intensity :
  first_unknown_option subject_type (Str tone) intensity = None →
  Forall (fun s => known VisualPriority s = true) visual_priorities →
  enhance_with_intent base_prompt subject_type (Str tone)
    visual_priorities intensity
  = Raise (AttributeError "'str' object has no attribute 'value'").
Proof.
  intros (Ks & Ke & Ki)%first_unknown_option_None Hall.
  destruct (enum_getitem_known _ _ Ks) as (subject & Es).
  destruct (enum_getitem_known _ _ Ke) as (emotion & Ee).
  destruct (enum_getitem_known _ _ Ki) as (level & Ei).
  destruct (convert_priorities_known visual_priorities [] Hall) as (ps & Ep).
  by destruct (enhance_with_intent_known_options base_prompt subject_type
                 (Str tone) visual_priorities intensity _ _ _ _ Es Ee Ei Ep)
    as (params & _ & ->).
Qed.

(** X2. The options are converted in the order subject type, emotional
    tone, intensity, before any visual priority: the first of the three
    that names no member ends the call with a [KeyError] carrying its
    upper-cased text, whatever the later arguments are. *)
Theorem first_unknown_option_raises base_prompt subject_type emotional_tone
    visual_priorities intensity key :
  first_unknown_option subject_type emotional_tone intensity = Some key →
  enhance_with_intent base_prompt subject_type emotional_tone
    visual_priorities intensity = Raise (KeyError key).
Proof.
  unfold first_unknown_option, enhance_with_intent.
  destruct (known SubjectType subject_type) eqn:Ks; cbn [negb].
  2:{ intros [= <-]. by rewrite (enum_getitem_unknown _ _ Ks). }
  destruct (enum_getitem_known _ _ Ks) as (subject & ->).
  destruct (known EmotionalTone emotional_tone) eqn:Ke; cbn [negb].
  2:{ intros [= <-]. by rewrite (enum_getitem_unknown _ _ Ke). }
  destruct (enum_getitem_known _ _ Ke) as (emotion & ->).
  destruct (known IntensityLevel intensity) eqn:Ki; cbn [negb]; [done|].
  intros [= <-]. by rewrite (enum_getitem_unknown _ _ Ki).
Qed.

(** X3. With the three options known, the first visual priority that
    names no member is the one reported, in an error response; later
    entries are not looked at. *)
Theorem first_unknown_priority_reported base_prompt subject_type
    emotional_tone intensity good bad rest :
  first_unknown_option subject_type emotional_tone intensity = None →
  Forall (fun s => known VisualPriority s = true) good →
  known VisualPriority bad = false →
  enhance_with_intent base_prompt subject_type emotional_tone
    (good ++ bad :: rest) intensity
  = Ok (ErrorResponse ("Invalid visual priority: " +:+ format bad)).
Proof.
  intros (Ks & Ke & Ki)%first_unknown_option_None Hgood Hbad.
  unfold enhance_with_intent.
  destruct (enum_getitem_known _ _ Ks) as (subject & ->).
  destruct (enum_getitem_known _ _ Ke) as (emotion & ->).
  destruct (enum_getitem_known _ _ Ki) as (level & ->).
  cbn [mbind result_bind].
  by rewrite (convert_priorities_first_unknown good bad rest [] Hgood Hbad).
Qed.

(** X4. With every option and every visual priority naming a member and
    [emotional_tone] a member of a [str] enum, the call returns its
    result dictionary: the dictionary of the vector the resolver gives
    for the members named, the two prompts built from that vector, and
    the summary line. *)
Theorem member_tone_returns_response base_prompt subject_type value formatted
    visual_priorities intensity :
  first_unknown_option subject_type (Member value formatted) intensity = None →
  Forall (fun s => known VisualPriority s = true) visual_priorities →
  ∃ subject emotion level priorities params,
    enum_getitem SubjectType (upper subject_type) = Ok subject
    ∧ enum_getitem EmotionalTone (upper (Member value formatted)) = Ok emotion
    ∧ enum_getitem IntensityLevel (upper intensity) = Ok level
    ∧ convert_priorities visual_priorities [] = Ok (inr priorities)
    ∧ design_intent_to_parameters
        (Build_DesignIntent subject emotion priorities level) = Ok params
    ∧ enhance_with_intent base_prompt subject_type (Member value formatted)
        visual_priorities intensity
      = Ok (IntentResponse (to_dict params)
              (build_enhanced_prompt base_prompt params)
              (negative_prompt_spec params)
              ("Applied " +:+ member_value level +:+ " " +:+ value
               +:+ " treatment to " +:+ format subject_type
               +:+ ", emphasizing "
               +:+ match priorities with
                   | [] => "none specified"
                   | _ => join ", " (map member_value priorities)
                   end)).
Proof.
  intros (Ks & Ke & Ki)%first_unknown_option_None Hall.
  destruct (enum_getitem_known _ _ Ks) as (subject & Es).
  destruct (enum_getitem_known _ _ Ke) as (emotion & Ee).
  destruct (enum_getitem_known _ _ Ki) as (level & Ei).
  destruct (convert_priorities_known visual_priorities [] Hall) as (ps & Ep).
  destruct (enhance_with_intent_known_options base_prompt subject_type
              (Member value formatted) visual_priorities intensity _ _ _ _
              Es Ee Ei Ep) as (params & E & R).
  exists subject, emotion, level, ps, params. by repeat split.
Qed.

(** X5. Every string [get_available_options] lists is accepted by the
    enum conversion of [enhance_with_intent] in any ASCII case and
    converts to the member with that display string; and a string is
    accepted only if, upper-cased, it is one of the listed strings
    upper-cased. *)
Theorem listed_options_accepted :
  Forall (fun s => ∃ m : SubjectType, member_value m = s ∧
            ∀ s', upper s' = upper s → enum_getitem SubjectType (upper s') = Ok m)
    (dict_get get_available_options "subject_types" [])
  ∧ Forall (fun s => ∃ m : EmotionalTone, member_value m = s ∧
            ∀ s', upper s' = upper s → enum_getitem EmotionalTone (upper s') = Ok m)
    (dict_get get_available_options "emotional_tones" [])
  ∧ Forall (fun s => ∃ m : VisualPriority, member_value m = s ∧
            ∀ s', upper s' = upper s → enum_getitem VisualPriority (upper s') = Ok m)
    (dict_get get_available_options "visual_priorities" [])
  ∧ Forall (fun s => ∃ m : IntensityLevel, member_value m = s ∧
            ∀ s', upper s' = upper s → enum_getitem IntensityLevel (upper s') = Ok m)
    (dict_get get_available_options "intensity_levels" [])
  ∧ (∀ s (m : SubjectType), enum_getitem SubjectType (upper s) = Ok m →
       upper s = upper (member_value m)
       ∧ member_value m ∈ dict_get get_available_options "subject_types" [])
  ∧ (∀ s (m : EmotionalTone), enum_getitem EmotionalTone (upper s) = Ok m →
       upper s = upper (member_value m)
       ∧ member_value m ∈ dict_get get_available_options "emotional_tones" [])
  ∧ (∀ s (m : VisualPriority), enum_getitem VisualPriority (upper s) = Ok m →
       upper s = upper (member_value m)
       ∧ member_value m ∈ dict_get get_available_options "visual_priorities" [])
  ∧ (∀ s (m : IntensityLevel), enum_getitem IntensityLevel (upper s) = Ok m →
       upper s = upper (member_value m)
       ∧ member_value m ∈ dict_get get_available_options "intensity_levels" []).
Proof.
  repeat apply conj.
  1-4: repeat constructor; eexists; (split; [reflexivity|]);
    intros s' ->; reflexivity.
  all: intros s m <-%enum_getitem_name; destruct m; split;
    first [reflexivity | cbn; repeat constructor].
Qed.

Lemma clamp_idempotent x : clamp (clamp x) = clamp x.
Proof. unfold clamp. lia. Qed.

Lemma clamped_parameter_set_clamp e t p r rd tn :
  clamped_parameter_set (clamp e) (clamp t) (clamp p) (clamp r) (clamp rd) (clamp tn)
  = clamped_parameter_set e t p r rd tn.
Proof.
  unfold clamped_parameter_set, clamp_arg, int_of_int. cbn [mbind result_bind].
  fold (clamp e) (clamp t) (clamp p) (clamp r) (clamp rd) (clamp tn).
  fold (clamp (clamp e)) (clamp (clamp t)) (clamp (clamp p)) (clamp (clamp r))
       (clamp (clamp rd)) (clamp (clamp tn)).
  by rewrite !clamp_idempotent.
Qed.

(** X6. Both parameter tools see their arguments only through the
    clamp: passing an out-of-range integer gives the same response as
    passing the nearest bound. *)
Theorem parameter_tools_clamp base_prompt e t p r rd tn :
  enhance_with_parameters base_prompt
    (clamp e) (clamp t) (clamp p) (clamp r) (clamp rd) (clamp tn)
  = enhance_with_parameters base_prompt e t p r rd tn
  ∧ describe_parameters (clamp e) (clamp t) (clamp p) (clamp r) (clamp rd) (clamp tn)
    = describe_parameters e t p r rd tn.
Proof.
  unfold enhance_with_parameters, describe_parameters.
  by rewrite clamped_parameter_set_clamp.
Qed.

Lemma append_empty (s : string) : s +:+ "" = s.
Proof.
  induction s as [|c s IH]; [done|].
  change (String c (s +:+ "") = String c s). by rewrite IH.
Qed.

(** X7. The base prompt goes through verbatim and the appended text
    does not depend on it: the enhanced prompt is the base prompt
    followed by the enhanced prompt of the empty base. *)
Theorem build_enhanced_prompt_base base_prompt params :
  build_enhanced_prompt base_prompt params
  = base_prompt +:+ build_enhanced_prompt "" params.
Proof.
  unfold build_enhanced_prompt.
  generalize (append_if
    (append_if (append_if (append_if (append_if (append_if []
       (get_template (exaggeration params) EXAGGERATION_TEMPLATES))
       (get_template (timing params) TIMING_TEMPLATES))
       (get_template (physical params) PHYSICAL_TEMPLATES))
       (get_template (ruleOfThree params) RULE_OF_THREE_TEMPLATES))
       (get_template (readability params) READABILITY_TEMPLATES))
       (get_template (tension params) TENSION_TEMPLATES)).
  intros [|f additions].
  - symmetry. apply append_empty.
  - reflexivity.
Qed.

(** X8. The negative prompt is exactly the four baseline terms if and
    only if no gate holds: exaggeration, timing, physical, ruleOfThree
    and tension below 6 and readability below 8. *)
Theorem negative_prompt_baseline_iff params :
  build_negative_prompt params = Ok "blurry, low quality, distorted, ugly"
  ↔ exaggeration params < 6 ∧ timing params < 6 ∧ physical params < 6
    ∧ ruleOfThree params < 6 ∧ readability params < 8 ∧ tension params < 6.
Proof.
  rewrite build_negative_prompt_eq. unfold negative_prompt_spec.
  rewrite conditional_terms_unfold.
  destruct (Z.leb_spec 6 (exaggeration params)), (Z.leb_spec 6 (timing params)),
    (Z.leb_spec 6 (physical params)), (Z.leb_spec 6 (ruleOfThree params)),
    (Z.leb_spec 8 (readability params)), (Z.leb_spec 6 (tension params));
    (split; [intros E; vm_compute in E; first [discriminate E | lia]
            | intros ?; first [lia | reflexivity]]).
Qed.

(** X9. A vector passes [validate] exactly when every value of its
    dictionary form is within [[0,10]]. *)
Theorem validate_iff_dict_bounded params :
  validate params = true ↔ vector_bounded (to_dict params).
Proof.
  split; [apply to_dict_bounded|].
  intros Hb. unfold validate. cbn [forallb]. rewrite !andb_true_iff, !in_bounds_spec.
  assert (∀ k, k ∈ PARAMETER_NAMES → ∀ v, to_dict params !! k = Some v → 0 <= v <= 10)
    as G by (intros k _ v; apply Hb).
  pose proof (G "exaggeration" ltac:(in_names) _ eq_refl).
  pose proof (G "timing" ltac:(in_names) _ eq_refl).
  pose proof (G "physical" ltac:(in_names) _ eq_refl).
  pose proof (G "ruleOfThree" ltac:(in_names) _ eq_refl).
  pose proof (G "readability" ltac:(in_names) _ eq_refl).
  pose proof (G "tension" ltac:(in_names) _ eq_refl).
  tauto.
Qed.

(** X10. For all integers [describe_parameters] returns the clamped
    vector and a description dictionary whose keys are exactly the six
    parameter names. *)
Theorem describe_parameters_shape e t p r rd tn :
  ∃ descriptions,
    describe_parameters e t p r rd tn
    = Ok (DescribeResponse descriptions
            (to_dict (mk_params (clamp e) (clamp t) (clamp p) (clamp r)
                        (clamp rd) (clamp tn))))
    ∧ dom descriptions = list_to_set PARAMETER_NAMES.
Proof.
  eexists. split; [reflexivity|].
  unfold parameters_to_enhancement_description. cbn zeta.
  rewrite !dom_insert_L, dom_empty_L. unfold PARAMETER_NAMES. cbn [list_to_set foldr].
  set_solver.
Qed.

(** ** [get_template] on any table *)

Lemma insert_desc_perm x l : insert_desc x l ≡ₚ x :: l.
Proof.
  induction l as [|y l IH]; cbn; [done|].
  destruct (item_ltb x y); [|done]. rewrite IH. apply Permutation_swap.
Qed.

Lemma sorted_reverse_perm l : sorted_reverse l ≡ₚ l.
Proof.
  induction l as [|x l IH]; cbn; [done|].
  fold (sorted_reverse l). by rewrite insert_desc_perm, IH.
Qed.

Lemma first_match_holds v lo hi text rest :
  first_match v ((lo, hi, text) :: rest)
  = if bool_decide (range_holds (lo, hi, text) v) then text
    else first_match v rest.
Proof.
  cbn [first_match]. unfold range_holds. cbn [fst snd].
  destruct (Z.leb_spec lo v), (Z.leb_spec v hi); cbn [andb];
    case_bool_decide; (done || lia).
Qed.

Lemma first_match_entry v items :
  (first_match v items = "" ∧ ∀ item, item ∈ items → ¬ range_holds item v)
  ∨ (∃ item, item ∈ items ∧ range_holds item v ∧ first_match v items = item.2).
Proof.
  induction items as [|[[lo hi] text] rest IH].
  - left. split; [done|]. by intros item ?%elem_of_nil.
  - rewrite first_match_holds. case_bool_decide as Hh.
    + right. exists (lo, hi, text). split; [left|done].
    + destruct IH as [[E Hnone]|(item & Hin & Hr & E)].
      * left. split; [done|]. intros item [->|?]%elem_of_cons; auto.
      * right. exists item. split; [by right|done].
Qed.

(** X11. On any table [get_template] returns the text of an entry whose
    range holds the value, or the empty string when no range does. *)
Theorem get_template_entry v (tpl : templates) :
  (get_template v tpl = "" ∧ ∀ item, item ∈ tpl → ¬ range_holds item v)
  ∨ (∃ item, item ∈ tpl ∧ range_holds item v ∧ get_template v tpl = item.2).
Proof.
  unfold get_template.
  destruct (first_match_entry v (sorted_reverse tpl))
    as [[E Hnone]|(item & Hin & Hr & E)].
  - left. split; [done|]. intros item Hin. apply Hnone.
    by rewrite sorted_reverse_perm.
  - right. exists item. by rewrite sorted_reverse_perm in Hin.
Qed.

Lemma key_lt_trans a b c : key_lt a b → key_lt b c → key_lt a c.
Proof. unfold key_lt. lia. Qed.

Lemma key_lt_total (a b : Z * Z) : a ≠ b → key_lt a b ∨ key_lt b a.
Proof.
  destruct a as [a1 a2], b as [b1 b2]. unfold key_lt. cbn. intros Hne.
  destruct (decide (a1 = b1)) as [->|]; [|lia].
  destruct (decide (a2 = b2)) as [->|]; [done|lia].
Qed.

Lemma item_ltb_key x y : x.1 ≠ y.1 → item_ltb x y = true ↔ key_lt x.1 y.1.
Proof.
  destruct x as [[a1 a2] ta], y as [[b1 b2] tb]. unfold item_ltb, key_lt. cbn.
  intros Hne. destruct (Z.eqb_spec a1 b1) as [->|]; [|rewrite Z.ltb_lt; lia].
  destruct (Z.eqb_spec a2 b2) as [->|]; [done|rewrite Z.ltb_lt; lia].
Qed.

Lemma insert_desc_sorted x l :
  StronglySorted before l → x.1 ∉ map fst l →
  StronglySorted before (insert_desc x l).
Proof.
  induction 1 as [|y l Hs IH Hy]; intros Hx; cbn.
  - repeat constructor.
  - apply not_elem_of_cons in Hx as [Hxy Hxl].
    destruct (item_ltb x y) eqn:E.
    + constructor; [by apply IH|]. rewrite insert_desc_perm.
      constructor; [|done]. by apply item_ltb_key.
    + assert (key_lt y.1 x.1) as Hlt.
      { destruct (key_lt_total x.1 y.1 Hxy) as [Hlt|]; [|done].
        apply item_ltb_key in Hlt; [congruence|done]. }
      constructor; [by constructor|]. constructor; [done|].
      eapply Forall_impl; [exact Hy|]. intros z Hz. by eapply key_lt_trans.
Qed.

Lemma sorted_reverse_sorted tpl :
  NoDup (map fst tpl) → StronglySorted before (sorted_reverse tpl).
Proof.
  induction tpl as [|x l IH]; cbn; [constructor|].
  intros [Hx Hl]%NoDup_cons. fold (sorted_reverse l).
  apply insert_desc_sorted; [by apply IH|]. by rewrite sorted_reverse_perm.
Qed.

Lemma first_match_sorted v items item :
  StronglySorted before items → item ∈ items → range_holds item v →
  (∀ item', item' ∈ items → range_holds item' v → ¬ key_lt item.1 item'.1) →
  first_match v items = item.2.
Proof.
  induction 1 as [|[[lo hi] text] rest Hs IH Hx]; intros Hin Hr Hmax.
  - by apply elem_of_nil in Hin.
  - rewrite first_match_holds. apply elem_of_cons in Hin as [->|Hin].
    + by rewrite bool_decide_eq_true_2.
    + case_bool_decide as Hh.
      * rewrite Forall_forall in Hx. destruct (Hmax (lo, hi, text)); [left|done|].
        by apply Hx.
      * apply IH; [done..|]. intros item' ?. apply Hmax. by right.
Qed.

(** X12. On a table with distinct keys [get_template] returns the text
    of the entry with the greatest key, by [min] then [max], among the
    entries whose range holds the value: with overlapping ranges the
    highest one wins. *)
Theorem get_template_highest_key v (tpl : templates) item :
  NoDup (map fst tpl) → item ∈ tpl → range_holds item v →
  (∀ item', item' ∈ tpl → range_holds item' v → ¬ key_lt item.1 item'.1) →
  get_template v tpl = item.2.
Proof.
  intros Hnd Hin Hr Hmax. unfold get_template.
  apply first_match_sorted; [by apply sorted_reverse_sorted| |done|].
  - by rewrite sorted_reverse_perm.
  - intros item' Hin'. apply Hmax. by rewrite sorted_reverse_perm in Hin'.
Qed.

Lemma get_template_highest_key_witness :
  get_template 7 [((0, 10), "any"); ((5, 10), "high"); ((5, 8), "mid")] = "high".
Proof.
  apply (get_template_highest_key 7
           [((0, 10), "any"); ((5, 10), "high"); ((5, 8), "mid")]
           ((5, 10), "high")).
  - apply (bool_decide_unpack _). vm_compute. reflexivity.
  - apply (bool_decide_unpack _). vm_compute. reflexivity.
  - unfold range_holds. simpl. lia.
  - intros item' Hin _.
    repeat (apply elem_of_cons in Hin as [->|Hin]); [..|by apply elem_of_nil in Hin];
      unfold key_lt; simpl; lia.
Defined.

(** X13. On each of the six shipped tables [get_template] gives the
    empty string exactly for the values outside [[0,10]]. *)
Theorem shipped_templates_empty_iff :
  Forall (fun tpl => ∀ v, get_template v tpl = "" ↔ (v < 0 ∨ 10 < v))
    TEMPLATE_TABLES.
Proof.
  apply Forall_forall. intros tpl Hin v. split.
  - intros E. destruct (decide (0 <= v <= 10)) as [Hv|]; [|lia].
    by destruct (get_template_nonempty tpl v Hin Hv).
  - intros Hv. destruct (first_match_entry v (sorted_reverse tpl))
      as [[E _]|(item & Hitem & Hr & _)]; [done|].
    rewrite sorted_reverse_perm in Hitem.
    apply TEMPLATE_TABLES_shape in Hin as [Hk _].
    apply (list_elem_of_fmap_2 fst) in Hitem.
    change (item.1 ∈ map fst tpl) in Hitem. rewrite Hk in Hitem.
    unfold range_holds in Hr. unfold BUCKETS in Hitem.
    repeat (apply elem_of_cons in Hitem as [E|Hitem]);
      [..|by apply elem_of_nil in Hitem]; rewrite E in Hr; cbn in Hr; lia.
Qed.

(** ** The resolver in closed form *)

Lemma scaled_of_vector di :
  scaled_of di
  = Ok (to_dict (scaled_vector (subject_type di) (intensity_level di))).
Proof.
  destruct di as [st tone prios il]. unfold scaled_of.
  cbn [subject_type intensity_level].
  destruct st, il; (erewrite scaled_params_eq; [reflexivity|..]);
    vm_compute; reflexivity.
Qed.

Lemma scaled_vector_valid st il : validate (scaled_vector st il) = true.
Proof. destruct st, il; vm_compute; reflexivity. Qed.

Lemma dict_lookup_not_in {V} (d : list (string * V)) k :
  k ∉ map fst d → dict_lookup d k = None.
Proof.
  induction d as [|[k' v] d IH]; cbn; [done|].
  intros [Hne Hin]%not_elem_of_cons. destruct (decide (k' = k)); [done|auto].
Qed.

(** After the tone loop a parameter holds its clamped sum with the
    tone's delta, or its old value when the tone leaves it out. *)
Lemma fold_modifier_lookup modifiers (m : gmap string Z) k v :
  NoDup (map fst modifiers) → m !! k = Some v →
  fold_left apply_modifier modifiers m !! k
  = Some (match dict_lookup modifiers k with
          | Some delta => clamp (v + delta)
          | None => v
          end).
Proof.
  revert m v. induction modifiers as [|[k' delta] rest IH]; intros m v Hnd Hv;
    cbn [fold_left dict_lookup]; [done|].
  cbn in Hnd. apply NoDup_cons in Hnd as [Hk' Hnd].
  unfold apply_modifier at 2. cbn [fst snd].
  destruct (decide (k' = k)) as [->|Hne].
  - rewrite Hv. rewrite (IH _ (Z.max 0 (Z.min 10 (v + delta)))); [|done|].
    + by rewrite dict_lookup_not_in.
    + apply lookup_insert_eq.
  - destruct (m !! k') as [v'|]; [|by apply IH].
    apply IH; [done|]. by rewrite lookup_insert_ne.
Qed.

Lemma tone_modifiers_NoDup tone :
  NoDup (map fst (dict_get EMOTIONAL_TONE_MODIFIERS tone [])).
Proof. destruct tone; apply (bool_decide_unpack _); vm_compute; reflexivity. Qed.

Lemma boost_count_nonneg priorities k : 0 <= boost_count priorities k.
Proof. unfold boost_count. lia. Qed.

Lemma boost_count_cons p priorities k :
  boost_count (p :: priorities) k
  = (if decide (dict_lookup VISUAL_PRIORITY_BOOSTS p = Some k) then 1 else 0)
    + boost_count priorities k.
Proof.
  unfold boost_count. rewrite filter_cons. case_decide; cbn [length]; lia.
Qed.

(** After the priority loop a parameter has gained two per priority that
    targets it, capped at 10. *)
Lemma fold_boost_lookup priorities (m : gmap string Z) k v :
  k ≠ "" → m !! k = Some v → v <= 10 →
  fold_left apply_boost priorities m !! k
  = Some (Z.min 10 (v + 2 * boost_count priorities k)).
Proof.
  intros Hk. revert m v.
  induction priorities as [|p rest IH]; intros m v Hv Hle; cbn [fold_left].
  - rewrite Hv. unfold boost_count. cbn. f_equal; lia.
  - rewrite boost_count_cons. pose proof (boost_count_nonneg rest k).
    unfold apply_boost at 2.
    destruct (dict_lookup VISUAL_PRIORITY_BOOSTS p) as [target|] eqn:Et.
    2:{ rewrite decide_False by done. rewrite (IH m v) by done. f_equal; lia. }
    destruct (decide (target = k)) as [->|Hne].
    + rewrite decide_True by done. rewrite bool_decide_eq_false_2, Hv by done.
      rewrite (IH _ (Z.min 10 (v + 2))); [f_equal; lia| |lia].
      apply lookup_insert_eq.
    + rewrite decide_False by congruence.
      assert ((if bool_decide (target = "") then m
               else match m !! target with
                    | Some v0 => <[target:=Z.min 10 (v0 + 2)]> m
                    | None => m
                    end) !! k = Some v) as Hm.
      { case_bool_decide; [done|]. destruct (m !! target); [|done].
        by rewrite lookup_insert_ne. }
      rewrite (IH _ v Hm Hle). f_equal; lia.
Qed.

Lemma parameter_fields_lookup ps k field :
  (k, field) ∈ PARAMETER_FIELDS →
  k ∈ PARAMETER_NAMES ∧ k ≠ "" ∧ to_dict ps !! k = Some (field ps).
Proof.
  unfold PARAMETER_FIELDS. intros Hin.
  repeat (apply elem_of_cons in Hin as [[= -> ->]|Hin]);
    [..|by apply elem_of_nil in Hin];
    (split; [in_names|split; [done|reflexivity]]).
Qed.

Lemma resolver_fields di :
  ∃ ps, design_intent_to_parameters di = Ok ps
        ∧ ∀ k field, (k, field) ∈ PARAMETER_FIELDS →
            field ps
            = resolved_value di k
                (field (scaled_vector (subject_type di) (intensity_level di))).
Proof.
  rewrite design_intent_to_parameters_unfold, scaled_of_vector.
  cbn [mbind result_bind].
  set (sv := scaled_vector (subject_type di) (intensity_level di)).
  pose proof (to_dict_bounded_params sv (scaled_vector_valid _ _)) as Hb.
  destruct (parameter_set_of_bounded (clamp_all (working_params (to_dict sv) di)))
    as (ps & E & _ & L); [by apply clamp_all_bounded, working_params_bounded|].
  exists ps. split; [done|]. intros k field Hin.
  destruct (parameter_fields_lookup ps k field Hin) as (Hk & Hne & Hps).
  destruct (parameter_fields_lookup sv k field Hin) as (_ & _ & Hsv).
  destruct (Hb k Hk) as (s & Hs & Hs10).
  assert (s = field sv) as -> by congruence.
  rewrite (L k Hk) in Hps. unfold working_params in Hps.
  pose proof (fold_modifier_lookup _ _ k _ (tone_modifiers_NoDup (emotional_tone di)) Hsv)
    as Hm.
  set (vt := match dict_lookup _ k with Some d => clamp (field sv + d) | None => field sv end)
    in Hm.
  assert (0 <= vt <= 10) as Hvt.
  { subst vt. destruct (dict_lookup _ k); unfold clamp; lia. }
  pose proof (fold_boost_lookup (visual_priorities di) _ k vt Hne Hm ltac:(lia)) as Hbst.
  rewrite (clamp_all_lookup _ _ _ Hbst) in Hps.
  pose proof (boost_count_nonneg (visual_priorities di) k).
  injection Hps as <-. unfold resolved_value, tone_delta. subst vt.
  destruct (dict_lookup _ k); cbn [default from_option]; unfold id, clamp; lia.
Qed.

(** X14. The resolver in closed form: each field of its vector is the
    scaled preset value (exact decimal product, rounded half to even),
    plus the tone's delta clamped to [[0,10]], plus two per visual
    priority that targets the field, capped at 10. *)
Theorem resolver_closed_form di :
  ∃ ps, design_intent_to_parameters di = Ok ps
        ∧ Forall (fun '(k, field) =>
                    field ps
                    = resolved_value di k
                        (field (scaled_vector (subject_type di)
                                  (intensity_level di))))
            PARAMETER_FIELDS.
Proof.
  destruct (resolver_fields di) as (ps & E & Hf). exists ps. split; [done|].
  apply Forall_forall. intros [k field] Hin. by apply Hf.
Qed.

Lemma parameter_set_ext ps ps' :
  (∀ k field, (k, field) ∈ PARAMETER_FIELDS → field ps = field ps') → ps = ps'.
Proof.
  intros H.
  pose proof (H "exaggeration" exaggeration ltac:(unfold PARAMETER_FIELDS; repeat constructor)).
  pose proof (H "timing" timing ltac:(unfold PARAMETER_FIELDS; repeat constructor)).
  pose proof (H "physical" physical ltac:(unfold PARAMETER_FIELDS; repeat constructor)).
  pose proof (H "ruleOfThree" ruleOfThree ltac:(unfold PARAMETER_FIELDS; repeat constructor)).
  pose proof (H "readability" readability ltac:(unfold PARAMETER_FIELDS; repeat constructor)).
  pose proof (H "tension" tension ltac:(unfold PARAMETER_FIELDS; repeat constructor)).
  destruct ps as [e t p r rd tn], ps' as [e' t' p' r' rd' tn'].
  cbn in *. congruence.
Qed.

(** X15. The order of the visual priorities does not matter: a
    permutation of the list resolves to the same vector. *)
Theorem resolver_priority_order di priorities' :
  visual_priorities di ≡ₚ priorities' →
  design_intent_to_parameters (with_priorities di priorities')
  = design_intent_to_parameters di.
Proof.
  intros Hp.
  destruct (resolver_fields di) as (ps & -> & Hf).
  destruct (resolver_fields (with_priorities di priorities')) as (ps' & -> & Hf').
  f_equal. apply parameter_set_ext. intros k field Hin.
  rewrite (Hf k field Hin), (Hf' k field Hin).
  unfold resolved_value, boost_count, with_priorities. cbn. by rewrite Hp.
Qed.

Lemma resolver_priority_order_witness :
  design_intent_to_parameters
    (with_priorities
       (Build_DesignIntent PORTRAIT OMINOUS [SUSPENSE; FLOW; SCALE] SUBTLE)
       [SCALE; SUSPENSE; FLOW])
  = design_intent_to_parameters
      (Build_DesignIntent PORTRAIT OMINOUS [SUSPENSE; FLOW; SCALE] SUBTLE).
Proof.
  apply (resolver_priority_order
           (Build_DesignIntent PORTRAIT OMINOUS [SUSPENSE; FLOW; SCALE] SUBTLE)
           [SCALE; SUSPENSE; FLOW]).
  simpl. symmetry. apply (Permutation_cons_append [SUSPENSE; FLOW] SCALE).
Defined.

Lemma scaled_vector_monotone st il il' :
  intensity_rank il <= intensity_rank il' →
  ∀ k field, (k, field) ∈ PARAMETER_FIELDS →
    field (scaled_vector st il) <= field (scaled_vector st il').
Proof.
  intros Hr k field Hin. unfold PARAMETER_FIELDS in Hin.
  repeat (apply elem_of_cons in Hin as [[= -> ->]|Hin]);
    [..|by apply elem_of_nil in Hin];
    destruct st, il, il'; cbn in Hr; try lia;
    apply Z.leb_le; vm_compute; reflexivity.
Qed.

(** X16. Raising the intensity level (subtle, moderate, strong, extreme)
    never lowers any field of the resolved vector. *)
Theorem resolver_monotone_in_intensity di il' :
  intensity_rank (intensity_level di) <= intensity_rank il' →
  ∃ ps ps',
    design_intent_to_parameters di = Ok ps
    ∧ design_intent_to_parameters (with_intensity di il') = Ok ps'
    ∧ Forall (fun '(k, field) => field ps <= field ps') PARAMETER_FIELDS.
Proof.
  intros Hr.
  destruct (resolver_fields di) as (ps & E & Hf).
  destruct (resolver_fields (with_intensity di il')) as (ps' & E' & Hf').
  exists ps, ps'. repeat (split; [done|]).
  apply Forall_forall. intros [k field] Hin.
  rewrite (Hf k field Hin), (Hf' k field Hin).
  pose proof (scaled_vector_monotone (subject_type di) _ _ Hr k field Hin) as Hs.
  unfold resolved_value, with_intensity, clamp. cbn. lia.
Qed.

Lemma resolver_monotone_in_intensity_witness :
  ∃ ps ps',
    design_intent_to_parameters
      (Build_DesignIntent ABSTRACT CHAOTIC [CLARITY] MODERATE) = Ok ps
    ∧ design_intent_to_parameters
        (with_intensity (Build_DesignIntent ABSTRACT CHAOTIC [CLARITY] MODERATE)
           STRONG) = Ok ps'
    ∧ Forall (fun '(k, field) => field ps <= field ps') PARAMETER_FIELDS.
Proof.
  apply (resolver_monotone_in_intensity
           (Build_DesignIntent ABSTRACT CHAOTIC [CLARITY] MODERATE) STRONG).
  simpl. lia.
Defined.

(** ** Descriptions and buckets *)

Lemma parameter_tables_field params k field tpl :
  (k, field, tpl) ∈ PARAMETER_TABLES →
  tpl ∈ TEMPLATE_TABLES
  ∧ (validate params = true → 0 <= field params <= 10)
  ∧ parameters_to_enhancement_description params !! k
    = parameters_to_enhancement_description
        (mk_params (field params) (field params) (field params)
           (field params) (field params) (field params)) !! k.
Proof.
  unfold PARAMETER_TABLES. intros Hin.
  repeat (apply elem_of_cons in Hin as [[= -> -> ->]|Hin]);
    [..|by apply elem_of_nil in Hin];
    (split; [unfold TEMPLATE_TABLES; repeat constructor|]);
    (split; [intros ?%validate_fields; tauto|reflexivity]).
Qed.

(** X17. Descriptions and prompt fragments follow the same four buckets:
    for two vectors within bounds, a parameter gets the same description
    in both exactly when it gets the same prompt fragment in both. *)
Theorem descriptions_follow_buckets params params' :
  validate params = true → validate params' = true →
  Forall (fun '(k, field, tpl) =>
            parameters_to_enhancement_description params !! k
            = parameters_to_enhancement_description params' !! k
            ↔ get_template (field params) tpl = get_template (field params') tpl)
    PARAMETER_TABLES.
Proof.
  intros V V'. apply Forall_forall. intros [[k field] tpl] Hin.
  destruct (parameter_tables_field params k field tpl Hin) as (_ & Hv & ->).
  destruct (parameter_tables_field params' k field tpl Hin) as (_ & Hv' & ->).
  specialize (Hv V). specialize (Hv' V').
  apply in_bounds_cases in Hv, Hv'.
  unfold PARAMETER_TABLES in Hin.
  repeat (apply elem_of_cons in Hin as [[= -> -> ->]|Hin]);
    [..|by apply elem_of_nil in Hin];
    repeat (destruct Hv as [->|Hv]); try rewrite Hv;
    repeat (destruct Hv' as [->|Hv']); try rewrite Hv';
    vm_compute; (split; intros E; first [reflexivity | discriminate E]).
Qed.

Lemma descriptions_follow_buckets_witness :
  Forall (fun '(k, field, tpl) =>
            parameters_to_enhancement_description (mk_params 5 5 5 5 5 5) !! k
            = parameters_to_enhancement_description (mk_params 3 6 4 9 5 0) !! k
            ↔ get_template (field (mk_params 5 5 5 5 5 5)) tpl
              = get_template (field (mk_params 3 6 4 9 5 0)) tpl)
    PARAMETER_TABLES.
Proof.
  apply (descriptions_follow_buckets (mk_params 5 5 5 5 5 5)
           (mk_params 3 6 4 9 5 0)); reflexivity.
Defined.

(** ** The parameter tool's response *)

(** X18. For all integers [enhance_with_parameters] returns a result
    dictionary, never an error: the clamped vector, the enhanced prompt
    built from it and the negative prompt built from it. *)
Theorem enhance_with_parameters_response base_prompt e t p r rd tn :
  let params :=
    mk_params (clamp e) (clamp t) (clamp p) (clamp r) (clamp rd) (clamp tn) in
  enhance_with_parameters base_prompt e t p r rd tn
  = Ok (ParametersResponse (to_dict params)
          (build_enhanced_prompt base_prompt params)
          (negative_prompt_spec params)).
Proof.
  cbn zeta.
  destruct (enhance_with_parameters_ok base_prompt e t p r rd tn)
    as (ps & text & E & _ & N & ->).
  injection E as <-. rewrite build_negative_prompt_eq in N. injection N as <-.
  reflexivity.
Qed.

(** X19. The dictionary form of a vector has exactly the six parameter
    names as keys, and reading the six keys back gives the vector. *)
Theorem to_dict_round_trip params :
  dom (to_dict params) = list_to_set PARAMETER_NAMES
  ∧ parameter_set_of (to_dict params) = Ok params.
Proof.
  split.
  - unfold to_dict. rewrite !dom_insert_L, dom_empty_L.
    unfold PARAMETER_NAMES. cbn [list_to_set foldr]. set_solver.
  - destruct params. reflexivity.
Qed.

End Interpreter.

(** * Instances at concrete inputs

    The inputs are ASCII text, so the Unicode case mapping is never
    asked; it is given as the identity. *)

Lemma exact_str_tone_raises_witness :
  enhance_with_intent (fun s => s) "A corporate office" "Architecture" "TENSE"
    [Str "suspense"; Str "balance"] "extreme"
  = Raise (AttributeError "'str' object has no attribute 'value'").
Proof.
  apply (exact_str_tone_raises (fun s => s) "A corporate office" "Architecture"
           "TENSE" [Str "suspense"; Str "balance"] "extreme").
  - reflexivity.
  - repeat constructor.
Defined.

Lemma first_unknown_option_raises_witness :
  enhance_with_intent (fun s => s) "A corporate office" "architecture" "gloomy"
    [Str "colour"] "maximum" = Raise (KeyError "GLOOMY").
Proof.
  apply (first_unknown_option_raises (fun s => s) "A corporate office"
           "architecture" "gloomy" [Str "colour"] "maximum" "GLOOMY").
  reflexivity.
Defined.

Lemma first_unknown_priority_reported_witness :
  enhance_with_intent (fun s => s) "A corporate office" "architecture" "tense"
    ([Str "suspense"; Member "scale" "VisualPriority.SCALE"]
     ++ Str "colour" :: [Str "sound"]) "extreme"
  = Ok (ErrorResponse ("Invalid visual priority: " +:+ format (Str "colour"))).
Proof.
  apply (first_unknown_priority_reported (fun s => s) "A corporate office"
           "architecture" "tense" "extreme"
           [Str "suspense"; Member "scale" "VisualPriority.SCALE"]
           (Str "colour") [Str "sound"]).
  - reflexivity.
  - repeat constructor.
  - reflexivity.
Defined.

Lemma member_tone_returns_response_witness :
  ∃ params,
    design_intent_to_parameters
      (Build_DesignIntent ARCHITECTURE TENSE [SUSPENSE] EXTREME) = Ok params
    ∧ enhance_with_intent (fun s => s) "A corporate office" "architecture"
        (Member "tense" "EmotionalTone.TENSE") [Str "suspense"] "extreme"
      = Ok (IntentResponse (to_dict params)
              (build_enhanced_prompt "A corporate office" params)
              (negative_prompt_spec params)
              "Applied extreme tense treatment to architecture, emphasizing suspense").
Proof.
  destruct (member_tone_returns_response (fun s => s) "A corporate office"
              "architecture" "tense" "EmotionalTone.TENSE" [Str "suspense"]
              "extreme" eq_refl ltac:(repeat constructor))
    as (subject & emotion & level & priorities & params
        & Es & Ee & El & Ep & E & R).
  injection Es as <-. injection Ee as <-. injection El as <-. injection Ep as <-.
  exists params. split; [exact E|exact R].
Defined.
